(** * VoltWire: a shallow embedding of [voltwire/components.py],
      [voltwire/decorators.py] and [voltwire/middleware.py]

    The development follows the Python source function by function:

    - [PyString]: the [str] methods and the [int] constructor the code calls;
    - [Re]: the regular expression of the [email] rule and [re.match];
    - [pyval]: the Python values a component property can hold;
    - the validation engine ([_validate_property], [is_valid]);
    - the component instance, attribute lookup, [dir] and [dispatch];
    - the template resolver, [redirect], the property reflector, [render];
    - the decorators of [decorators.py] and the class bodies they stand in;
    - the middleware of [middleware.py].

    Strings are [string]; each character stands for one code point below 256.
    Exceptions are values of [exn], carried by the [result] monad. *)

From Stdlib Require Import ZArith QArith Ascii String List Bool Lia.
From stdpp Require Import base option list sorting gmap strings pretty.

(** ** Exceptions and the error monad *)

Inductive exn : Type :=
  | TypeError
  | ValueError
  | IndexError
  | AttributeError
  | RecursionError
  | NoReverseMatch.

Inductive result (A : Type) : Type :=
  | Ok (a : A)
  | Raise (e : exn).

Arguments Ok {A} a.
Arguments Raise {A} e.

Definition rbind {A B : Type} (m : result A) (k : A -> result B) : result B :=
  match m with
  | Ok a => k a
  | Raise e => Raise e
  end.

#[global] Instance result_ret : MRet result := fun A a => Ok a.
#[global] Instance result_bind : MBind result := fun A B k m => rbind m k.

Definition of_option {A : Type} (e : exn) (o : option A) : result A :=
  match o with
  | Some a => Ok a
  | None => Raise e
  end.

(** ** The [str] methods and the [int] constructor used by the source *)

Module PyString.

(** [str.isspace] on the code points below 256. *)
Definition isspace (c : ascii) : bool :=
  let n := nat_of_ascii c in
  ((9 <=? n) && (n <=? 13)) || ((28 <=? n) && (n <=? 32))
  || (n =? 133) || (n =? 160).

Fixpoint lstrip (s : string) : string :=
  match s with
  | String c s' => if isspace c then lstrip s' else s
  | EmptyString => EmptyString
  end.

Definition rstrip (s : string) : string :=
  String.rev (lstrip (String.rev s)).

(** [s.strip()] *)
Definition strip (s : string) : string := rstrip (lstrip s).

(** [s.split(sep)] for a one-character separator: never an empty list. *)
Fixpoint split (sep : ascii) (s : string) : list string :=
  match s with
  | EmptyString => [ EmptyString ]
  | String c s' =>
      if Ascii.eqb c sep then EmptyString :: split sep s'
      else match split sep s' with
           | p :: ps => String c p :: ps
           | [] => [ String c EmptyString ]
           end
  end.

(** [s.startswith(p)] *)
Fixpoint startswith (s p : string) : bool :=
  match p, s with
  | EmptyString, _ => true
  | String _ _, EmptyString => false
  | String a p', String b s' => Ascii.eqb a b && startswith s' p'
  end.

Definition lower_char (c : ascii) : ascii :=
  let n := nat_of_ascii c in
  if ((65 <=? n) && (n <=? 90))
     || ((192 <=? n) && (n <=? 222) && negb (n =? 215))
  then ascii_of_nat (n + 32) else c.

(** [s.lower()] *)
Fixpoint lower (s : string) : string :=
  match s with
  | EmptyString => EmptyString
  | String c s' => String (lower_char c) (lower s')
  end.

(** [len(s)] *)
Definition len (s : string) : Z := Z.of_nat (String.length s).

(** *** [int(s)] in base ten *)

Definition digit (c : ascii) : option Z :=
  let n := nat_of_ascii c in
  if (48 <=? n) && (n <=? 57) then Some (Z.of_nat n - 48)%Z else None.

(** Digits, with single underscores allowed between two digits.
    [after_digit] tells whether the previous character was a digit. *)
Fixpoint digits (acc : Z) (after_digit : bool) (s : string) : option Z :=
  match s with
  | EmptyString => if after_digit then Some acc else None
  | String c s' =>
      match digit c with
      | Some d => digits (10 * acc + d)%Z true s'
      | None =>
          if Ascii.eqb c "_"%char && after_digit then digits acc false s'
          else None
      end
  end.

(** The white space [int] skips around the literal: [str.isspace] without
    the four separators 28..31. *)
Definition int_space (c : ascii) : bool :=
  let n := nat_of_ascii c in
  ((9 <=? n) && (n <=? 13)) || (n =? 32) || (n =? 133) || (n =? 160).

Fixpoint int_lstrip (s : string) : string :=
  match s with
  | String c s' => if int_space c then int_lstrip s' else s
  | EmptyString => EmptyString
  end.

Definition int_strip (s : string) : string :=
  String.rev (int_lstrip (String.rev (int_lstrip s))).

(** [int(s)]: [None] stands for [ValueError]. *)
Definition int (s : string) : option Z :=
  match int_strip s with
  | String "+"%char s' => digits 0 false s'
  | String "-"%char s' => Z.opp <$> digits 0 false s'
  | s' => digits 0 false s'
  end.

(** [str(n)] for an integer, as an f-string interpolates it. *)
Definition of_int (n : Z) : string := pretty n.

End PyString.

(** ** Regular expressions: the fragment the [email] rule needs *)

Module Re.

Inductive regex : Type :=
  | Void                       (* matches nothing *)
  | Eps                        (* the empty string *)
  | Chr (c : ascii)            (* a literal character, also an escaped one *)
  | NotChr (c : ascii)         (* the class [^c] *)
  | Cat (r1 r2 : regex)
  | Alt (r1 r2 : regex)
  | Star (r : regex).

(** [r+] *)
Definition Plus (r : regex) : regex := Cat r (Star r).

Fixpoint nullable (r : regex) : bool :=
  match r with
  | Void => false
  | Eps => true
  | Chr _ => false
  | NotChr _ => false
  | Cat r1 r2 => nullable r1 && nullable r2
  | Alt r1 r2 => nullable r1 || nullable r2
  | Star _ => true
  end.

Fixpoint deriv (a : ascii) (r : regex) : regex :=
  match r with
  | Void => Void
  | Eps => Void
  | Chr c => if Ascii.eqb a c then Eps else Void
  | NotChr c => if Ascii.eqb a c then Void else Eps
  | Cat r1 r2 =>
      if nullable r1 then Alt (Cat (deriv a r1) r2) (deriv a r2)
      else Cat (deriv a r1) r2
  | Alt r1 r2 => Alt (deriv a r1) (deriv a r2)
  | Star r1 => Cat (deriv a r1) (Star r1)
  end.

(** The whole of [s] is a word of [r]. *)
Fixpoint fullmatch (r : regex) (s : list ascii) : bool :=
  match s with
  | [] => nullable r
  | a :: s' => fullmatch (deriv a r) s'
  end.

(** Remove one final newline, when there is one. *)
Definition chop_newline (s : list ascii) : option (list ascii) :=
  match rev s with
  | c :: s' => if Ascii.eqb c "010"%char then Some (rev s') else None
  | [] => None
  end.

(** [re.match('^' r '$', s)] is not [None]: without [re.MULTILINE] the
    pattern must start at position 0 and [$] holds at the end of the
    string and just before a newline that ends the string. *)
Definition match_anchored (r : regex) (s : string) : bool :=
  let l := list_ascii_of_string s in
  fullmatch r l
  || match chop_newline l with
     | Some l' => fullmatch r l'
     | None => false
     end.

(** The words of a regular expression. *)
Inductive lang : regex -> list ascii -> Prop :=
  | lang_eps : lang Eps []
  | lang_chr c : lang (Chr c) [c]
  | lang_notchr c a : a <> c -> lang (NotChr c) [a]
  | lang_cat r1 r2 s1 s2 :
      lang r1 s1 -> lang r2 s2 -> lang (Cat r1 r2) (s1 ++ s2)
  | lang_alt_l r1 r2 s : lang r1 s -> lang (Alt r1 r2) s
  | lang_alt_r r1 r2 s : lang r2 s -> lang (Alt r1 r2) s
  | lang_star_nil r : lang (Star r) []
  | lang_star_cons r s1 s2 :
      lang r s1 -> lang (Star r) s2 -> lang (Star r) (s1 ++ s2).

End Re.

(** ** Python values *)

(** A function object: its [__name__] and, once [@validate] has been applied
    to it, the dictionary stored in its [_validation_rules] attribute. *)
Record pyfunction : Type := {
  __name__ : string;
  fn_validation_rules : option (gmap string string);
}.

(** A [float]: every finite float is a rational number, and Python compares
    a float with an [int] exactly. *)
Inductive pyfloat : Type :=
  | FNan
  | FInf (negative : bool)
  | FFin (q : Q).

#[warnings="-register-all"]
Inductive pyval : Type :=
  | PyNone
  | PyBool (b : bool)
  | PyInt (n : Z)
  | PyFloat (x : pyfloat)
  | PyStr (s : string)
  | PyList (l : list pyval)
  | PyDict (d : list (pyval * pyval))
  | PyCallable (f : pyfunction)            (* functions and bound methods *)
  | PyObj (truthy : bool) (shown : string) (* any other object *).

(** [bool(v)], the test of [if v]. *)
Definition truth (v : pyval) : bool :=
  match v with
  | PyNone => false
  | PyBool b => b
  | PyInt n => negb (n =? 0)%Z
  | PyFloat (FFin q) => negb (Qnum q =? 0)%Z
  | PyFloat _ => true
  | PyStr s => negb (String.eqb s "")
  | PyList l => negb (bool_decide (l = []))
  | PyDict d => negb (bool_decide (d = []))
  | PyCallable _ => true
  | PyObj t _ => t
  end.

(** [callable(v)] *)
Definition callable (v : pyval) : bool :=
  match v with
  | PyCallable _ => true
  | _ => false
  end.

(** [v is None] *)
Definition is_None (v : pyval) : bool :=
  match v with
  | PyNone => true
  | _ => false
  end.

(** [v == ''] *)
Definition eq_empty_str (v : pyval) : bool :=
  match v with
  | PyStr s => String.eqb s ""
  | _ => false
  end.

(** [isinstance(v, str)] *)
Definition isinstance_str (v : pyval) : bool :=
  match v with
  | PyStr _ => true
  | _ => false
  end.

(** The instances of [int] and [float]. [bool] is a subclass of [int]:
    [True] is 1 and [False] is 0. *)
Inductive number : Type :=
  | NInt (n : Z)
  | NFloat (x : pyfloat).

Definition as_number (v : pyval) : option number :=
  match v with
  | PyBool b => Some (NInt (Z.b2z b))
  | PyInt n => Some (NInt n)
  | PyFloat x => Some (NFloat x)
  | _ => None
  end.

(** [isinstance(v, (int, float))] *)
Definition isinstance_int_float (v : pyval) : bool :=
  bool_decide (is_Some (as_number v)).

(** [x < n] and [x > n] for a number [x] and an [int] [n]. *)
Definition num_ltb (x : number) (n : Z) : bool :=
  match x with
  | NInt m => (m <? n)%Z
  | NFloat FNan => false
  | NFloat (FInf negative) => negative
  | NFloat (FFin q) => (Qnum q <? n * Z.pos (Qden q))%Z
  end.

Definition num_gtb (x : number) (n : Z) : bool :=
  match x with
  | NInt m => (n <? m)%Z
  | NFloat FNan => false
  | NFloat (FInf negative) => negb negative
  | NFloat (FFin q) => (n * Z.pos (Qden q) <? Qnum q)%Z
  end.

(** [isinstance(v, (int, float)) and v < n] *)
Definition number_below (v : pyval) (n : Z) : bool :=
  match as_number v with
  | Some x => num_ltb x n
  | None => false
  end.

(** [isinstance(v, (int, float)) and v > n] *)
Definition number_above (v : pyval) (n : Z) : bool :=
  match as_number v with
  | Some x => num_gtb x n
  | None => false
  end.

(** [isinstance(v, str) and len(v) < n] *)
Definition str_shorter (v : pyval) (n : Z) : bool :=
  match v with
  | PyStr s => (PyString.len s <? n)%Z
  | _ => false
  end.

(** [isinstance(v, str) and len(v) > n] *)
Definition str_longer (v : pyval) (n : Z) : bool :=
  match v with
  | PyStr s => (n <? PyString.len s)%Z
  | _ => false
  end.

(** ** The validation engine: [VoltWireComponent._validate_property] *)

(** The pattern [r'^[^@]+@[^@]+\.[^@]+$'] between its anchors. *)
Definition email_pattern : Re.regex :=
  Re.Cat (Re.Plus (Re.NotChr "@"))
    (Re.Cat (Re.Chr "@")
       (Re.Cat (Re.Plus (Re.NotChr "@"))
          (Re.Cat (Re.Chr ".") (Re.Plus (Re.NotChr "@"))))).

(** [re.match(r'^[^@]+@[^@]+\.[^@]+$', v)]: a [TypeError] unless [v] is a
    string, otherwise whether there is a match. *)
Definition re_match_email (v : pyval) : result bool :=
  match v with
  | PyStr s => Ok (Re.match_anchored email_pattern s)
  | _ => Raise TypeError
  end.

(** [int(rule.split(':')[1])] *)
Definition rule_parameter (rule : string) : result Z :=
  piece ← of_option IndexError (PyString.split ":" rule !! 1%nat);
  of_option ValueError (PyString.int piece).

(** One turn of the loop [for rule in rule_list], on the list [errors]
    accumulated so far. *)
Definition check_rule (value : pyval) (errors : list string) (rule : string)
  : result (list string) :=
  if String.eqb rule "required" then
    if is_None value || eq_empty_str value
    then Ok (errors ++ ["This field is required."])
    else Ok errors
  else if PyString.startswith rule "min:" then
    min_val ← rule_parameter rule;
    if number_below value min_val
    then Ok (errors ++
               ["Value must be at least " +:+ PyString.of_int min_val +:+ "."])
    else if str_shorter value min_val
    then Ok (errors ++
               ["Must be at least " +:+ PyString.of_int min_val
                +:+ " characters."])
    else Ok errors
  else if PyString.startswith rule "max:" then
    max_val ← rule_parameter rule;
    if number_above value max_val
    then Ok (errors ++
               ["Value must be at most " +:+ PyString.of_int max_val +:+ "."])
    else if str_longer value max_val
    then Ok (errors ++
               ["Must be at most " +:+ PyString.of_int max_val
                +:+ " characters."])
    else Ok errors
  else if String.eqb rule "email" then
    if truth value then
      matched ← re_match_email value;
      if negb matched
      then Ok (errors ++ ["Must be a valid email address."])
      else Ok errors
    else Ok errors
  else Ok errors.

(** The loop over [rule_list]. *)
Fixpoint check_rules (value : pyval) (errors : list string)
    (rule_list : list string) : result (list string) :=
  match rule_list with
  | [] => Ok errors
  | rule :: rest =>
      errors' ← check_rule value errors rule;
      check_rules value errors' rest
  end.

(** [[rule.strip() for rule in rules.split('|')]] *)
Definition rule_list_of (rules : string) : list string :=
  PyString.strip <$> PyString.split "|" rules.

Definition _validate_property (property_name : string) (value : pyval)
    (rules : string) : result (list string) :=
  check_rules value [] (rule_list_of rules).

(** The messages one rule contributes on its own. *)
Definition rule_messages (value : pyval) (rule : string)
  : result (list string) :=
  check_rule value [] rule.

(** ** Component instances *)

(** An instance of a subclass of [VoltWireComponent]. The attributes the
    source reads by name have a field of their own, holding what the lookup
    [self.<name>] yields; every other attribute lives in [inst_dict] (the
    instance [__dict__]) or in [cls_attrs] (what the class and its bases,
    [VoltWireComponent], Django's [View] and [object], provide to an
    instance). [class_only] holds the names a class binds to a
    [classonlymethod] of Django, as [View] does with [as_view]: [dir(self)]
    lists such a name, and looking it up on an instance raises
    [AttributeError], unless the instance or a subclass binds the name to a
    value of its own. *)
Record component : Type := {
  cls_name : string;                          (* self.__class__.__name__ *)
  cls_module : string;                        (* self.__class__.__module__ *)
  cls_attrs : gmap string pyval;
  class_only : gset string;
  inst_dict : gmap string pyval;
  _validation_rules : list (string * string); (* items(), in insertion order *)
  _template_extensions : option (list string);
  http_method_names : list string;
  _errors : gmap string (list string);
  _is_voltwire_request : bool;
  _initialized_properties : bool;
}.

Definition set_errors (self : component) (e : gmap string (list string))
  : component :=
  {| cls_name := cls_name self; cls_module := cls_module self;
     cls_attrs := cls_attrs self; class_only := class_only self;
     inst_dict := inst_dict self;
     _validation_rules := _validation_rules self;
     _template_extensions := _template_extensions self;
     http_method_names := http_method_names self;
     _errors := e;
     _is_voltwire_request := _is_voltwire_request self;
     _initialized_properties := _initialized_properties self |}.

Definition set_is_voltwire_request (self : component) (b : bool) : component :=
  {| cls_name := cls_name self; cls_module := cls_module self;
     cls_attrs := cls_attrs self; class_only := class_only self;
     inst_dict := inst_dict self;
     _validation_rules := _validation_rules self;
     _template_extensions := _template_extensions self;
     http_method_names := http_method_names self;
     _errors := _errors self;
     _is_voltwire_request := b;
     _initialized_properties := _initialized_properties self |}.

Definition set_initialized_properties (self : component) (b : bool)
  : component :=
  {| cls_name := cls_name self; cls_module := cls_module self;
     cls_attrs := cls_attrs self; class_only := class_only self;
     inst_dict := inst_dict self;
     _validation_rules := _validation_rules self;
     _template_extensions := _template_extensions self;
     http_method_names := http_method_names self;
     _errors := _errors self;
     _is_voltwire_request := _is_voltwire_request self;
     _initialized_properties := b |}.

(** [setattr(self, name, value)] for a name without a field of its own. *)
Definition setattr (self : component) (name : string) (value : pyval)
  : component :=
  {| cls_name := cls_name self; cls_module := cls_module self;
     cls_attrs := cls_attrs self; class_only := class_only self;
     inst_dict := <[name := value]> (inst_dict self);
     _validation_rules := _validation_rules self;
     _template_extensions := _template_extensions self;
     http_method_names := http_method_names self;
     _errors := _errors self;
     _is_voltwire_request := _is_voltwire_request self;
     _initialized_properties := _initialized_properties self |}.

Definition str_dict (d : list (string * pyval)) : pyval :=
  PyDict (prod_map PyStr id <$> d).

Definition str_list (l : list string) : pyval := PyList (PyStr <$> l).

(** The attributes held in fields, as the values attribute lookup returns. *)
Definition field_attrs (self : component) : gmap string pyval :=
  let fixed : gmap string pyval :=
    {[ "_errors" := str_dict (prod_map id str_list <$> map_to_list (_errors self));
       "_is_voltwire_request" := PyBool (_is_voltwire_request self);
       "_initialized_properties" := PyBool (_initialized_properties self);
       "_validation_rules" :=
         str_dict (prod_map id PyStr <$> _validation_rules self);
       "http_method_names" := str_list (http_method_names self) ]} in
  match _template_extensions self with
  | Some l => <["_template_extensions" := str_list l]> fixed
  | None => fixed
  end.

(** [getattr(self, name)]; [None] stands for [AttributeError]. *)
Definition getattr (self : component) (name : string) : option pyval :=
  match field_attrs self !! name with
  | Some v => Some v
  | None =>
      match inst_dict self !! name with
      | Some v => Some v
      | None => cls_attrs self !! name
      end
  end.

(** [hasattr(self, name)] *)
Definition hasattr (self : component) (name : string) : bool :=
  bool_decide (is_Some (getattr self name)).

(** [dir(self)]: the names of the instance [__dict__] and of the class and
    its bases, sorted as Python sorts strings, by code point. A name of
    [class_only] is listed although looking it up raises. *)
Definition dir (self : component) : list string :=
  merge_sort String.le
    (elements (dom (field_attrs self) ∪ dom (inst_dict self)
               ∪ dom (cls_attrs self) ∪ class_only self)).

(** *** [VoltWireComponent._initialize_properties] *)

(** The body of [for attr_name in dir(self)]: [getattr] has no default, so
    a name that cannot be looked up ends the loop with [AttributeError]. *)
Definition initialize_property (self : component) (attr_name : string)
  : result component :=
  if PyString.startswith attr_name "_" then Ok self
  else
    attr_value ← of_option AttributeError (getattr self attr_name);
    if callable attr_value then Ok self
    else if bool_decide (attr_name ∈ dom (inst_dict self)) then Ok self
    else Ok (setattr self attr_name attr_value).

(** The loop. An exception leaves the instance as the iterations before it
    made it. *)
Fixpoint initialize_loop (self : component) (names : list string)
  : component * result unit :=
  match names with
  | [] => (self, Ok ())
  | attr_name :: rest =>
      match initialize_property self attr_name with
      | Ok self => initialize_loop self rest
      | Raise e => (self, Raise e)
      end
  end.

(** The flag is set on line 69, after the loop: a loop that raised leaves
    it as it was. *)
Definition _initialize_properties (self : component)
  : component * result unit :=
  if _initialized_properties self then (self, Ok ())
  else
    let (self, r) := initialize_loop self (dir self) in
    match r with
    | Ok _ => (set_initialized_properties self true, Ok ())
    | Raise e => (self, Raise e)
    end.

(** *** [VoltWireComponent.dispatch] *)

Record HttpRequest : Type := {
  method : string;
  headers : gmap string string;   (* keyed by the lower-cased header name *)
  POST : gmap string string;
}.

(** [request.headers.get(name)]: header names are matched case-insensitively. *)
Definition headers_get (request : HttpRequest) (name : string)
  : option string :=
  headers request !! PyString.lower name.

(** What [dispatch] returns: the result of calling [callee] with
    [(request, *args, **kwargs)], or of [self.http_method_not_allowed]. *)
Inductive dispatched : Type :=
  | Called (callee : pyval)
  | MethodNotAllowed.

(** The verb handler. *)
Inductive handler_ref : Type :=
  | Attribute (v : pyval)
  | http_method_not_allowed.

(** [h(request, *args, **kwargs)] *)
Definition call_handler (h : handler_ref) : result dispatched :=
  match h with
  | Attribute v => if callable v then Ok (Called v) else Raise TypeError
  | http_method_not_allowed => Ok MethodNotAllowed
  end.

(** [getattr(self, request.method.lower(), self.http_method_not_allowed)]
    behind the test on [http_method_names]. *)
Definition verb_handler (self : component) (request : HttpRequest)
  : handler_ref :=
  if bool_decide (PyString.lower (method request) ∈ http_method_names self)
  then match getattr self (PyString.lower (method request)) with
       | Some v => Attribute v
       | None => http_method_not_allowed
       end
  else http_method_not_allowed.

Definition dispatch (self : component) (request : HttpRequest)
  : component * result dispatched :=
  let self :=
    set_is_voltwire_request self
      (bool_decide (headers_get request "X-VoltWire-Request" = Some "true")) in
  let handler := verb_handler self request in
  if _is_voltwire_request self && String.eqb (method request) "POST" then
    match POST request !! "voltwire_action" with
    | Some action =>
        if truth (PyStr action) && hasattr self action then
          match getattr self action with
          | Some v => (self, call_handler (Attribute v))
          | None => (self, Raise AttributeError)
          end
        else (self, call_handler handler)
    | None => (self, call_handler handler)
    end
  else (self, call_handler handler).

(** *** [VoltWireComponent.is_valid] *)

(** The loop [for property_name, rules in self._validation_rules.items()]. *)
Fixpoint is_valid_loop (self : component) (items : list (string * string))
  : component * result unit :=
  match items with
  | [] => (self, Ok ())
  | (property_name, rules) :: rest =>
      if hasattr self property_name then
        match getattr self property_name with
        | Some value =>
            match _validate_property property_name value rules with
            | Ok errors =>
                if bool_decide (errors = []) then is_valid_loop self rest
                else
                  is_valid_loop
                    (set_errors self (<[property_name := errors]> (_errors self)))
                    rest
            | Raise e => (self, Raise e)
            end
        | None => (self, Raise AttributeError)
        end
      else is_valid_loop self rest
  end.

Definition is_valid (self : component) : component * result bool :=
  let self := set_errors self ∅ in
  let (self, r) := is_valid_loop self (_validation_rules self) in
  (self, _ ← r; Ok (bool_decide (size (_errors self) = 0%nat))).

(** ** What the component asks of Django and of the Python runtime *)

(** A response of [django.shortcuts.redirect]: an [HttpResponseRedirect], or
    an [HttpResponsePermanentRedirect] when [permanent] was passed. *)
Record http_redirect : Type := {
  location : string;
  permanent : bool;
}.

Inductive response : Type :=
  | JsonResponse (data : gmap string pyval)
  | HttpRedirect (r : http_redirect).

(** [json.dumps(v)] with the default encoder, as far as the source uses it:
    only whether it raises, and what. The encoder goes through the value
    from left to right. Functions and other objects are rejected with a
    [TypeError], and so are dictionary keys that are not [str], [int],
    [float], [bool] or [None]; entering a list or a dictionary takes one
    level of the interpreter's recursion limit, and [RecursionError] is
    raised when none is left. [depth] is the number of levels left when
    [json.dumps] is called. The encoder raises [ValueError] for a value
    that contains itself, which no [pyval] does, and, in the interpreters
    that limit the digits of an [int] turned into text, for an [int] over
    that limit, which is not modelled; [serialize_property] below handles
    [ValueError] as the source does. *)
Definition json_key (k : pyval) : bool :=
  match k with
  | PyNone | PyBool _ | PyInt _ | PyFloat _ | PyStr _ => true
  | _ => false
  end.

Fixpoint json_dumps (depth : nat) (v : pyval) {struct v} : result unit :=
  match v with
  | PyNone | PyBool _ | PyInt _ | PyFloat _ | PyStr _ => Ok ()
  | PyList l =>
      match depth with
      | O => Raise RecursionError
      | S depth' =>
          (fix elements (l : list pyval) : result unit :=
             match l with
             | [] => Ok ()
             | x :: l' =>
                 match json_dumps depth' x with
                 | Ok _ => elements l'
                 | Raise e => Raise e
                 end
             end) l
      end
  | PyDict d =>
      match depth with
      | O => Raise RecursionError
      | S depth' =>
          (fix items (d : list (pyval * pyval)) : result unit :=
             match d with
             | [] => Ok ()
             | (k, x) :: d' =>
                 if json_key k then
                   match json_dumps depth' x with
                   | Ok _ => items d'
                   | Raise e => Raise e
                   end
                 else Raise TypeError
             end) d
      end
  | PyCallable _ | PyObj _ _ => Raise TypeError
  end.

Section Runtime.

(** [django.template.loader.get_template(name)] returns a template ([true])
    or raises ([false]). *)
Variable get_template : string -> bool.

(** [django.urls.reverse(view_name, args=args, kwargs=kwargs)]; [None]
    stands for [NoReverseMatch]. *)
Variable reverse :
  string -> list pyval -> list (string * pyval) -> option string.

(** [django.shortcuts.redirect(to, *args, **kwargs)] *)
Variable shortcuts_redirect :
  string -> list pyval -> list (string * pyval) -> result http_redirect.

(** [str(v)], which runs the [__str__] or [__repr__] of the value and
    raises what they raise. *)
Variable str : pyval -> result string.

(** The levels of the recursion limit left where the component calls
    [json.dumps]. *)
Variable recursion_depth : nat.

(** *** [VoltWireComponent.get_template_name] *)

(** The loop [for ext in template_extensions], up to its [return]. *)
Fixpoint probe_templates (class_name : string) (exts : list string)
  : option string :=
  match exts with
  | [] => None
  | ext :: rest =>
      let template_name := "VoltWire/" +:+ class_name +:+ ext in
      if get_template template_name then Some template_name
      else probe_templates class_name rest
  end.

Definition template_extensions_of (self : component) : list string :=
  default [".vw.html"; ".html"] (_template_extensions self).

Definition get_template_name (self : component) : string :=
  let class_name := cls_name self in
  match probe_templates class_name (template_extensions_of self) with
  | Some template_name => template_name
  | None => "VoltWire/" +:+ class_name +:+ ".html"
  end.

(** *** [VoltWireComponent.redirect] *)

Definition redirect (self : component) (view_name : string)
    (args : list pyval) (kwargs : list (string * pyval)) : result response :=
  if _is_voltwire_request self then
    url ← of_option NoReverseMatch (reverse view_name args kwargs);
    Ok (JsonResponse {[ "success" := PyBool true; "redirect" := PyStr url ]})
  else
    r ← shortcuts_redirect view_name args kwargs;
    Ok (HttpRedirect r).

(** *** [VoltWireComponent._get_serialized_properties] *)

(** The body of [for attr_name in dir(self)], on the dictionary
    [properties] built so far. *)
Definition serialize_property (self : component)
    (properties : gmap string pyval) (attr_name : string)
  : result (gmap string pyval) :=
  if PyString.startswith attr_name "_" then Ok properties
  else
    attr_value ← of_option AttributeError (getattr self attr_name);
    if negb (callable attr_value) then
      match json_dumps recursion_depth attr_value with
      | Ok _ => Ok (<[attr_name := attr_value]> properties)
      | Raise TypeError | Raise ValueError =>
          s ← str attr_value;
          Ok (<[attr_name := PyStr s]> properties)
      | Raise e => Raise e
      end
    else Ok properties.

Fixpoint serialize_properties (self : component)
    (properties : gmap string pyval) (names : list string)
  : result (gmap string pyval) :=
  match names with
  | [] => Ok properties
  | attr_name :: rest =>
      properties' ← serialize_property self properties attr_name;
      serialize_properties self properties' rest
  end.

Definition _get_serialized_properties (self : component)
  : result (gmap string pyval) :=
  serialize_properties self ∅ (dir self).

End Runtime.

(** ** [decorators.py] *)

(** [validate(rules)(field)] *)
Definition validate (rules : string) (field : pyfunction) : pyfunction :=
  let field_name := __name__ field in
  let field :=
    match fn_validation_rules field with
    | Some _ => field
    | None => {| __name__ := __name__ field; fn_validation_rules := Some ∅ |}
    end in
  {| __name__ := __name__ field;
     fn_validation_rules :=
       (fun d : gmap string string => <[field_name := rules]> d)
         <$> fn_validation_rules field |}.

(** ** Class statements *)

(** The names that have a field of their own in [component]. *)
Definition field_names : list string :=
  ["_errors"; "_is_voltwire_request"; "_initialized_properties";
   "_validation_rules"; "http_method_names"; "_template_extensions"].

Definition field_backed (name : string) : bool :=
  existsb (String.eqb name) field_names.

(** A name without a field of its own. The class bodies below bind such
    names to any value, and the two class attributes that have a field,
    [_validation_rules] and [_template_extensions], to values of the type of
    the field: a body that binds a name of [field_names] otherwise cannot be
    written. *)
Record plain_name : Type := PlainName {
  name_of : string;
  name_plain : field_backed name_of = false;
}.

Abbreviation plain s := (PlainName s eq_refl).

(** The statements of the body of [class C(VoltWireComponent)]. *)
Inductive class_stmt : Type :=
  (** [name = value] *)
  | Assign (name : plain_name) (value : pyval)
  (** [_validation_rules = {...}] *)
  | AssignRules (rules : list (string * string))
  (** [_template_extensions = [...]] *)
  | AssignTemplateExtensions (exts : list string)
  (** [@validate(r1) ... @validate(rn) def name(self, ...): ...] *)
  | Def (decorators : list string) (name : plain_name).

(** The name a statement binds. *)
Definition bound_name (s : class_stmt) : string :=
  match s with
  | Assign name _ | Def _ name => name_of name
  | AssignRules _ => "_validation_rules"
  | AssignTemplateExtensions _ => "_template_extensions"
  end.

(** The namespace a class body fills. [ns_validation_rules] is [None] as long
    as the body has not bound [_validation_rules], and likewise
    [ns_template_extensions]. *)
Record namespace : Type := {
  ns_attrs : gmap string pyval;
  ns_validation_rules : option (list (string * string));
  ns_template_extensions : option (list string);
}.

(** Decorators apply from the one nearest to [def] outwards. *)
Definition decorate (decorators : list string) (f : pyfunction) : pyfunction :=
  foldr validate f decorators.

Definition exec_stmt (ns : namespace) (s : class_stmt) : namespace :=
  match s with
  | Assign name value =>
      {| ns_attrs := <[name_of name := value]> (ns_attrs ns);
         ns_validation_rules := ns_validation_rules ns;
         ns_template_extensions := ns_template_extensions ns |}
  | AssignRules rules =>
      {| ns_attrs := ns_attrs ns;
         ns_validation_rules := Some rules;
         ns_template_extensions := ns_template_extensions ns |}
  | AssignTemplateExtensions exts =>
      {| ns_attrs := ns_attrs ns;
         ns_validation_rules := ns_validation_rules ns;
         ns_template_extensions := Some exts |}
  | Def decorators name =>
      let f := {| __name__ := name_of name; fn_validation_rules := None |} in
      {| ns_attrs :=
           <[name_of name := PyCallable (decorate decorators f)]> (ns_attrs ns);
         ns_validation_rules := ns_validation_rules ns;
         ns_template_extensions := ns_template_extensions ns |}
  end.

Definition empty_namespace : namespace :=
  {| ns_attrs := ∅; ns_validation_rules := None;
     ns_template_extensions := None |}.

Definition class_body (body : list class_stmt) : namespace :=
  foldl exec_stmt empty_namespace body.

(** [View.http_method_names] *)
Definition view_http_method_names : list string :=
  ["get"; "post"; "put"; "patch"; "delete"; "head"; "options"; "trace"].

Definition method_named (name : string) : pyval :=
  PyCallable {| __name__ := name; fn_validation_rules := None |}.

(** The class attributes [VoltWireComponent] defines that have no field in
    [component]. *)
Definition VoltWireComponent_attrs : gmap string pyval :=
  list_to_map
    ([("_layout", PyNone); ("_title", PyNone); ("_properties", PyDict [])]
     ++ ((fun name => (name, method_named name)) <$>
           ["__init__"; "setup"; "mount"; "_initialize_properties"; "dispatch";
            "render"; "_render_voltwire_response"; "get_template_name";
            "get_voltwire_context"; "_get_serialized_properties";
            "_get_messages"; "is_valid"; "_validate_property"; "get_errors";
            "show_toast"; "redirect"; "add_error"])).

(** The names [View] binds to a [classonlymethod]. *)
Definition view_class_only : gset string := {[ "as_view" ]}.

(** [C()] for the class [C(VoltWireComponent)] with the given body, in module
    [module]: the state [__init__] leaves. [base_attrs] is what [View] and
    [object] provide to an instance. *)
Definition new_component (base_attrs : gmap string pyval)
    (module name : string) (body : list class_stmt) : component :=
  let ns := class_body body in
  {| cls_name := name; cls_module := module;
     cls_attrs := ns_attrs ns ∪ VoltWireComponent_attrs ∪ base_attrs;
     class_only := view_class_only;
     inst_dict := ∅;
     _validation_rules := default [] (ns_validation_rules ns);
     _template_extensions := ns_template_extensions ns;
     http_method_names := view_http_method_names;
     _errors := ∅;
     _is_voltwire_request := false;
     _initialized_properties := false |}.

(** ** The wording of the specification *)

(** The shape [local@domain.tld]: a local part, [@], a domain part, a dot and
    a last part, the three parts non-empty and free of [@]. *)
Definition email_shape (s : string) : Prop :=
  exists l d t : list ascii,
    list_ascii_of_string s = l ++ ("@"%char :: d ++ ("."%char :: t))
    /\ l <> [] /\ d <> [] /\ t <> []
    /\ ("@"%char ∉ l) /\ ("@"%char ∉ d) /\ ("@"%char ∉ t).

(** The value of a public property: [attr_name] does not start with an
    underscore and [getattr(self, attr_name)] is not callable. *)
Definition public_property (self : component) (attr_name : string)
  : option pyval :=
  if PyString.startswith attr_name "_" then None
  else
    match getattr self attr_name with
    | Some attr_value => if callable attr_value then None else Some attr_value
    | None => None
    end.

(** A statement that binds the class attribute [_validation_rules]. *)
Definition binds_validation_rules (s : class_stmt) : bool :=
  String.eqb (bound_name s) "_validation_rules".

(** The same request without its [voltwire_action] field. *)
Definition without_action (request : HttpRequest) : HttpRequest :=
  {| method := method request; headers := headers request;
     POST := delete "voltwire_action" (POST request) |}.

(** ** Sample components and requests *)

Module Examples.

(** [class Counter(VoltWireComponent)] with a property, two verb handlers
    and a method under [@validate]. *)
Definition counter : component :=
  new_component ∅ "shop.components" "Counter"
    [ AssignTemplateExtensions [".vw.html"; ".html"];
      Assign (plain "count") (PyInt 0);
      Def [] (plain "get");
      Def [] (plain "post");
      Def ["required|min:3"] (plain "name") ].

(** A component that declares a rule for a field it does not have. *)
Definition signup : component :=
  new_component ∅ "shop.components" "Signup"
    [ AssignRules [("email", "required")] ].

(** A component with rules for two fields it has and for one it has
    not. *)
Definition profile : component :=
  new_component ∅ "shop.components" "Profile"
    [ AssignRules [("name", "required|min:3"); ("age", "min:18");
                   ("nickname", "required")];
      Assign (plain "name") (PyStr "ab");
      Assign (plain "age") (PyInt 20) ].

(** A POST carrying the header [X-VoltWire-Request: true]. *)
Definition reactive_post (fields : list (string * string)) : HttpRequest :=
  {| method := "POST";
     headers := {[ "x-voltwire-request" := "true" ]};
     POST := list_to_map fields |}.

(** A template store without any template. *)
Definition no_template (_ : string) : bool := false.

(** A URL configuration with the single route [home]. *)
Definition reverse_home (view_name : string) (_ : list pyval)
    (_ : list (string * pyval)) : option string :=
  if String.eqb view_name "home" then Some "/" else None.

Definition redirect_home (view_name : string) (args : list pyval)
    (kwargs : list (string * pyval)) : result http_redirect :=
  url ← of_option NoReverseMatch (reverse_home view_name args kwargs);
  Ok {| location := url; permanent := false |}.

(** [c in s] for a character. *)
Fixpoint has_char (c : ascii) (s : string) : bool :=
  match s with
  | EmptyString => false
  | String a s' => Ascii.eqb a c || has_char c s'
  end.

(** Django's [redirect] under the same configuration, as [resolve_url]
    makes it: a target that [reverse] does not resolve is taken for a URL
    when it contains a [/] or a [.]. *)
Definition django_redirect (to : string) (args : list pyval)
    (kwargs : list (string * pyval)) : result http_redirect :=
  match reverse_home to args kwargs with
  | Some url => Ok {| location := url; permanent := false |}
  | None =>
      if has_char "/" to || has_char "." to
      then Ok {| location := to; permanent := false |}
      else Raise NoReverseMatch
  end.

(** A GET carrying the header [X-VoltWire-Request: true]. *)
Definition reactive_get : HttpRequest :=
  {| method := "GET";
     headers := {[ "x-voltwire-request" := "true" ]};
     POST := ∅ |}.

(** A component with two fields that fail their rules and a rule for a
    field it has not. *)
Definition applicant : component :=
  new_component ∅ "shop.components" "Applicant"
    [ AssignRules [("name", "required|min:3"); ("age", "min:18");
                   ("nickname", "required")];
      Assign (plain "name") (PyStr "ab");
      Assign (plain "age") (PyInt 16) ].


End Examples.

(** ** Further wording for the statements below *)

(** Every character of [s] satisfies [p]. *)
Fixpoint string_forall (p : ascii -> bool) (s : string) : bool :=
  match s with
  | EmptyString => true
  | String c s' => p c && string_forall p s'
  end.

(** [c] is one of the ten decimal digits. *)
Definition is_digit (c : ascii) : bool := bool_decide (is_Some (PyString.digit c)).

(** [sep.join(pieces)] *)
Fixpoint join (sep : ascii) (pieces : list string) : string :=
  match pieces with
  | [] => EmptyString
  | [p] => p
  | p :: rest => p +:+ String sep (join sep rest)
  end.


(** The number a string of decimal digits denotes, read after [acc]. *)
Fixpoint decimal_value (acc : Z) (ds : string) : Z :=
  match ds with
  | EmptyString => acc
  | String c ds' =>
      decimal_value (10 * acc + default 0%Z (PyString.digit c))%Z ds'
  end.


(** *** [VoltWireComponent.get_errors] and [VoltWireComponent.add_error] *)

Definition get_errors (self : component) : gmap string (list string) :=
  _errors self.

Definition add_error (self : component) (field message : string)
  : component :=
  let self :=
    if bool_decide (field ∉ dom (_errors self))
    then set_errors self (<[field := []]> (_errors self))
    else self in
  set_errors self (alter (fun l => l ++ [message]) field (_errors self)).


(** A name the loops over [dir(self)] get past: a private name, which they
    skip without looking it up, or a name that [getattr] finds. *)
Definition readable (self : component) (name : string) : bool :=
  PyString.startswith name "_" || hasattr self name.

(** The names of a list that come before the first name not [readable]. *)
Fixpoint readable_prefix (self : component) (names : list string)
  : list string :=
  match names with
  | [] => []
  | name :: rest =>
      if readable self name then name :: readable_prefix self rest else []
  end.

(** The instance with [d] for its [__dict__]. *)
Definition set_inst_dict (self : component) (d : gmap string pyval)
  : component :=
  {| cls_name := cls_name self; cls_module := cls_module self;
     cls_attrs := cls_attrs self; class_only := class_only self;
     inst_dict := d;
     _validation_rules := _validation_rules self;
     _template_extensions := _template_extensions self;
     http_method_names := http_method_names self;
     _errors := _errors self;
     _is_voltwire_request := _is_voltwire_request self;
     _initialized_properties := _initialized_properties self |}.

(** The request with [fields] for its form fields. *)
Definition with_POST (request : HttpRequest) (fields : gmap string string)
  : HttpRequest :=
  {| method := method request; headers := headers request; POST := fields |}.


(** ** The settings *)

(** [settings.VOLTWIRE], where the middleware reads it, is a dictionary with
    string keys; [None] stands for settings without the attribute
    [VOLTWIRE]. *)

(** [getattr(settings, 'VOLTWIRE', {}).get(key, fallback)] *)
Definition voltwire_setting (settings : option (gmap string pyval))
    (key : string) (fallback : pyval) : pyval :=
  match settings with
  | Some voltwire_settings => default fallback (voltwire_settings !! key)
  | None => fallback
  end.

(** ** [decorators.py]: the class decorators *)

(** [layout(layout_name)(cls)]: [cls._layout = layout_name]. *)
Definition layout (layout_name : pyval) (cls : namespace) : namespace :=
  {| ns_attrs := <["_layout" := layout_name]> (ns_attrs cls);
     ns_validation_rules := ns_validation_rules cls;
     ns_template_extensions := ns_template_extensions cls |}.

(** [title(page_title)(cls)]: [cls._title = page_title]. *)
Definition title (page_title : pyval) (cls : namespace) : namespace :=
  {| ns_attrs := <["_title" := page_title]> (ns_attrs cls);
     ns_validation_rules := ns_validation_rules cls;
     ns_template_extensions := ns_template_extensions cls |}.

(** [cls()] for a class with the namespace [cls]: [new_component] on the
    namespace of a class body already built. *)
Definition instantiate (base_attrs : gmap string pyval)
    (module name : string) (cls : namespace) : component :=
  {| cls_name := name; cls_module := module;
     cls_attrs := ns_attrs cls ∪ VoltWireComponent_attrs ∪ base_attrs;
     class_only := view_class_only;
     inst_dict := ∅;
     _validation_rules := default [] (ns_validation_rules cls);
     _template_extensions := ns_template_extensions cls;
     http_method_names := view_http_method_names;
     _errors := ∅;
     _is_voltwire_request := false;
     _initialized_properties := false |}.

(** ** [middleware.py] *)

Module Middleware.

(** A request in the middleware: the HTTP request and the two attributes
    [process_request] may set on it, [None] while an attribute is not set. *)
Record request : Type := {
  http : HttpRequest;
  is_voltwire_spa : option pyval;
  is_voltwire_component : option pyval;
}.

(** A response: its headers, keyed by the lower-cased name, its body as
    bytes, and whether it streams. *)
Record response : Type := {
  response_headers : gmap string string;
  content : string;
  streaming : bool;
}.

(** What [process_response] does: return the response, or let the
    [UnicodeDecodeError] of [content.decode] through. *)
Inductive outcome : Type :=
  | Returned (r : response)
  | UnicodeDecodeError.

(** [sub in s] *)
Fixpoint contains (sub s : string) : bool :=
  PyString.startswith s sub
  || match s with
     | EmptyString => false
     | String _ s' => contains sub s'
     end.

(** [s.replace(old, new)] for a non-empty [old]: the occurrences are taken
    from the left and do not overlap. [skip] counts the characters of an
    occurrence still to pass. *)
Fixpoint replace_from (old new : string) (skip : nat) (s : string) : string :=
  match s with
  | EmptyString => EmptyString
  | String c s' =>
      match skip with
      | S k => replace_from old new k s'
      | O =>
          if PyString.startswith s old
          then new +:+ replace_from old new (String.length old - 1) s'
          else String c (replace_from old new 0 s')
      end
  end.

Definition replace (old new s : string) : string := replace_from old new 0 s.

Definition quote : string := String "034"%char EmptyString.
Definition newline : string := String "010"%char EmptyString.

(** [script_tag] of [process_response]. *)
Definition script_tag : string :=
  "<script src=" +:+ quote +:+ "/static/voltwire/js/voltwire.js" +:+ quote
  +:+ "></script>".

(** [_is_voltwire_spa_request]: the value of the [or]. *)
Definition _is_voltwire_spa_request (r : request) : pyval :=
  if bool_decide (headers_get (http r) "X-VoltWire-SPA" = Some "true")
  then PyBool true
  else default (PyBool false) (is_voltwire_spa r).

Definition _is_voltwire_component_request (r : request) : bool :=
  bool_decide (headers_get (http r) "X-VoltWire-Request" = Some "true").

Definition process_request (r : request) : request :=
  let r :=
    if truth (_is_voltwire_spa_request r)
    then {| http := http r; is_voltwire_spa := Some (PyBool true);
            is_voltwire_component := is_voltwire_component r |}
    else r in
  if _is_voltwire_component_request r
  then {| http := http r; is_voltwire_spa := is_voltwire_spa r;
          is_voltwire_component := Some (PyBool true) |}
  else r.

(** [hasattr(request, 'is_voltwire_spa') and request.is_voltwire_spa] *)
Definition spa_flagged (r : request) : bool :=
  match is_voltwire_spa r with
  | Some v => truth v
  | None => false
  end.

Section Codec.

(** [bytes.decode('utf-8')], [None] for [UnicodeDecodeError], and
    [str.encode('utf-8')]. *)
Variable decode : string -> option string.
Variable encode : string -> string.

Definition process_response (settings : option (gmap string pyval))
    (r : request) (resp : response) : outcome :=
  let resp :=
    if spa_flagged r
    then {| response_headers :=
              <[PyString.lower "X-VoltWire-SPA" := "true"]>
                (response_headers resp);
            content := content resp; streaming := streaming resp |}
    else resp in
  if truth (voltwire_setting settings "AUTO_INCLUDE_SCRIPTS" (PyBool true))
     && PyString.startswith
          (default "" (response_headers resp !! "content-type")) "text/html"
     && negb (streaming resp)
  then
    match decode (content resp) with
    | None => UnicodeDecodeError
    | Some text =>
        if contains "</head>" text
        then Returned
               {| response_headers := response_headers resp;
                  content :=
                    encode (replace "</head>"
                              (script_tag +:+ newline +:+ "</head>") text);
                  streaming := streaming resp |}
        else Returned resp
    end
  else Returned resp.

End Codec.

End Middleware.


(** ** Rendering: [get_voltwire_context], [_get_messages],
       [_render_voltwire_response] and [render] *)

(** The values of a template context. *)
Inductive ctxval : Type :=
  | CtxComponent (c : component)
  | CtxValue (v : pyval)
  | CtxProperties (p : gmap string pyval)
  | CtxErrors (e : gmap string (list string)).

(** A message of [django.contrib.messages]: [str(message)], [message.tags]
    and [message.level]. *)
Record queued_message : Type := {
  message_text : string;
  message_tags : string;
  message_level : Z;
}.

(** What [render] returns: [JsonResponse(data)], of which the dictionary is
    kept and the encoding of the body is left to Django, or the response of
    [django.shortcuts.render(request, template_name, context)]. *)
Inductive rendered : Type :=
  | JsonEnvelope (data : gmap string pyval)
  | Page (template_name : string) (context : gmap string ctxval).

(** [getattr(self, '_title', None)] *)
Definition title_of (self : component) : pyval :=
  default PyNone (getattr self "_title").

(** The dictionary [self._errors] as a value. *)
Definition errors_value (e : gmap string (list string)) : pyval :=
  str_dict (prod_map id str_list <$> map_to_list e).

Section Rendering.

Variable get_template : string -> bool.
Variable str : pyval -> result string.
Variable recursion_depth : nat.

(** [django.template.loader.render_to_string(name, context, request=request)] *)
Variable render_to_string :
  string -> gmap string ctxval -> HttpRequest -> result string.

(** [messages.get_messages(request)] *)
Variable get_messages : HttpRequest -> list queued_message.

(** The body of the loop of [get_voltwire_context]. *)
Definition context_property (self : component)
    (context : gmap string ctxval) (attr_name : string)
  : result (gmap string ctxval) :=
  if negb (PyString.startswith attr_name "_") then
    attr_value ← of_option AttributeError (getattr self attr_name);
    if negb (callable attr_value)
    then Ok (<[attr_name := CtxValue attr_value]> context)
    else Ok context
  else Ok context.

Fixpoint context_properties (self : component)
    (context : gmap string ctxval) (names : list string)
  : result (gmap string ctxval) :=
  match names with
  | [] => Ok context
  | attr_name :: rest =>
      context' ← context_property self context attr_name;
      context_properties self context' rest
  end.

(** The four entries [get_voltwire_context] starts from. *)
Definition voltwire_entries (self : component)
    (properties : gmap string pyval) : gmap string ctxval :=
  {[ "voltwire_component" := CtxComponent self;
     "voltwire_title" := CtxValue (title_of self);
     "voltwire_properties" := CtxProperties properties;
     "voltwire_errors" := CtxErrors (_errors self) ]}.

Definition get_voltwire_context (self : component)
  : result (gmap string ctxval) :=
  properties ← _get_serialized_properties str recursion_depth self;
  context_properties self (voltwire_entries self properties) (dir self).

Definition _get_messages (request : HttpRequest) : list pyval :=
  (fun message =>
     str_dict [("text", PyStr (message_text message));
               ("type", PyStr (message_tags message));
               ("level", PyInt (message_level message))])
    <$> get_messages request.

Definition _render_voltwire_response (self : component)
    (request : HttpRequest) (context : gmap string ctxval)
  : result rendered :=
  html_content ←
    render_to_string (get_template_name get_template self) context request;
  properties ← _get_serialized_properties str recursion_depth self;
  Ok (JsonEnvelope
        {[ "success" := PyBool true;
           "html" := PyStr html_content;
           "title" := title_of self;
           "errors" := errors_value (_errors self);
           "properties" := str_dict (map_to_list properties);
           "messages" := PyList (_get_messages request);
           "redirect" := PyNone ]}).

(** [render]: [context.update(...)] lets the entries of the component win
    over those the caller passed. *)
Definition render (self : component) (request : HttpRequest)
    (template_name : option string) (context : option (gmap string ctxval))
  : result rendered :=
  let context := default ∅ context in
  let template_name :=
    default (get_template_name get_template self) template_name in
  voltwire_context ← get_voltwire_context self;
  let context := voltwire_context ∪ context in
  if _is_voltwire_request self
  then _render_voltwire_response self request context
  else Ok (Page template_name context).

End Rendering.

(** * Properties *)

(** ** The matcher decides the language of a pattern *)

Module ReFacts.
Import Re.

Lemma lang_cat_inv r1 r2 s :
  lang (Cat r1 r2) s ->
  exists s1 s2, s = s1 ++ s2 /\ lang r1 s1 /\ lang r2 s2.
Proof. inversion 1; subst; eauto. Qed.

Lemma lang_alt_inv r1 r2 s : lang (Alt r1 r2) s -> lang r1 s \/ lang r2 s.
Proof. inversion 1; subst; auto. Qed.

Lemma nullable_lang r : nullable r = true <-> lang r [].
Proof.
  induction r as [| | c | c | r1 IH1 r2 IH2 | r1 IH1 r2 IH2 | r IH]; simpl.
  - split; [discriminate | inversion 1].
  - split; [constructor | reflexivity].
  - split; [discriminate | inversion 1].
  - split; [discriminate | inversion 1].
  - rewrite andb_true_iff, IH1, IH2. split.
    + intros [H1 H2]. apply (lang_cat _ _ [] []); assumption.
    + intros (s1 & s2 & E & H1 & H2)%lang_cat_inv.
      symmetry in E. apply app_eq_nil in E as [-> ->]. auto.
  - rewrite orb_true_iff, IH1, IH2. split.
    + intros [H | H]; [apply lang_alt_l | apply lang_alt_r]; exact H.
    + apply lang_alt_inv.
  - split; [constructor | reflexivity].
Qed.

(** A non-empty word of [r*] starts with a non-empty word of [r]. *)
Lemma lang_star_cons_inv r a s :
  lang (Star r) (a :: s) ->
  exists s1 s2, s = s1 ++ s2 /\ lang r (a :: s1) /\ lang (Star r) s2.
Proof.
  assert (Hgen : forall r' w, lang r' w -> forall t, r' = Star r ->
            w = a :: t ->
            exists s1 s2, t = s1 ++ s2 /\ lang r (a :: s1)
                          /\ lang (Star r) s2).
  { induction 1 as [| | | | | | |r0 w1 w2 H1 _ H2 IH2];
      intros t Er Ew; try discriminate.
    injection Er as ->. destruct w1 as [|b w1]; simpl in Ew.
    - apply IH2; auto.
    - injection Ew as -> <-. eauto. }
  intros H. eapply Hgen; eauto.
Qed.

Lemma deriv_lang a r s : lang (deriv a r) s <-> lang r (a :: s).
Proof.
  revert s.
  induction r as [| | c | c | r1 IH1 r2 IH2 | r1 IH1 r2 IH2 | r IH];
    intros s; simpl.
  - split; inversion 1.
  - split; inversion 1.
  - destruct (Ascii.eqb_spec a c) as [-> | Hne].
    + split; inversion 1; subst; constructor.
    + split; inversion 1; subst; congruence.
  - destruct (Ascii.eqb_spec a c) as [-> | Hne].
    + split; inversion 1; subst; congruence.
    + split; inversion 1; subst; constructor; assumption.
  - assert (Hcat : lang (Cat (deriv a r1) r2) s ->
                   lang (Cat r1 r2) (a :: s)).
    { intros (s1 & s2 & -> & H1 & H2)%lang_cat_inv.
      apply IH1 in H1. apply (lang_cat _ _ (a :: s1) s2); assumption. }
    assert (Hsplit : lang (Cat r1 r2) (a :: s) ->
              lang (Cat (deriv a r1) r2) s
              \/ (lang r1 [] /\ lang r2 (a :: s))).
    { intros (s1 & s2 & E & H1 & H2)%lang_cat_inv.
      destruct s1 as [|b s1]; simpl in E.
      - subst s2. right. auto.
      - injection E as <- ->. left. apply lang_cat; [apply IH1|]; assumption. }
    destruct (nullable r1) eqn:Hn.
    + split.
      * intros [H | H]%lang_alt_inv; [auto|].
        apply IH2 in H. apply nullable_lang in Hn.
        apply (lang_cat _ _ [] (a :: s)); assumption.
      * intros [H | [_ H]]%Hsplit; [apply lang_alt_l; exact H|].
        apply lang_alt_r, IH2, H.
    + split; [exact Hcat|].
      intros [H | [H _]]%Hsplit; [exact H|].
      apply nullable_lang in H. congruence.
  - split.
    + intros [H | H]%lang_alt_inv;
        [apply lang_alt_l, IH1 | apply lang_alt_r, IH2]; exact H.
    + intros [H | H]%lang_alt_inv;
        [apply lang_alt_l, IH1 | apply lang_alt_r, IH2]; exact H.
  - split.
    + intros (s1 & s2 & -> & H1 & H2)%lang_cat_inv.
      apply IH in H1. apply (lang_star_cons _ (a :: s1) s2); assumption.
    + intros (s1 & s2 & -> & H1 & H2)%lang_star_cons_inv.
      apply lang_cat; [apply IH|]; assumption.
Qed.

Lemma fullmatch_lang r s : fullmatch r s = true <-> lang r s.
Proof.
  revert r. induction s as [|a s IH]; intros r; simpl.
  - apply nullable_lang.
  - rewrite IH. apply deriv_lang.
Qed.

(** The words of [[^c]*] and of [[^c]+]. *)
Lemma lang_star_notchr c s : lang (Star (NotChr c)) s <-> c ∉ s.
Proof.
  induction s as [|a s IH].
  - split; [intros _; apply not_elem_of_nil | constructor].
  - split.
    + intros (s1 & s2 & -> & H1 & H2)%lang_star_cons_inv.
      inversion H1; subst. simpl. apply not_elem_of_cons. split; [auto|].
      apply IH, H2.
    + intros [Hne Hs]%not_elem_of_cons.
      apply (lang_star_cons _ [a] s); [constructor; auto | apply IH, Hs].
Qed.

Lemma lang_plus_notchr c s : lang (Plus (NotChr c)) s <-> s <> [] /\ c ∉ s.
Proof.
  unfold Plus. split.
  - intros (s1 & s2 & -> & H1 & H2)%lang_cat_inv. inversion H1; subst.
    split; [discriminate|]. simpl. apply not_elem_of_cons.
    split; [auto | apply lang_star_notchr, H2].
  - intros [Hne Hs]. destruct s as [|a s]; [congruence|].
    apply not_elem_of_cons in Hs as [Ha Hs].
    apply (lang_cat _ _ [a] s); [constructor; auto | apply lang_star_notchr, Hs].
Qed.

Lemma chop_newline_Some s s' :
  chop_newline s = Some s' -> s = s' ++ ["010"%char].
Proof.
  unfold chop_newline. destruct (rev s) as [|c t] eqn:E; [discriminate|].
  destruct (Ascii.eqb_spec c "010"%char) as [-> |]; [|discriminate].
  intros [= <-]. rewrite <- (rev_involutive s), E. reflexivity.
Qed.

End ReFacts.

(** ** The validation engine *)

Section Validation.
Import Re ReFacts.

Lemma email_pattern_lang w :
  lang email_pattern w <->
  exists l d t : list ascii,
    w = l ++ ("@"%char :: d ++ ("."%char :: t))
    /\ l <> [] /\ d <> [] /\ t <> []
    /\ ("@"%char ∉ l) /\ ("@"%char ∉ d) /\ ("@"%char ∉ t).
Proof.
  unfold email_pattern. split.
  - intros (l & w1 & -> & [Hl Hl']%lang_plus_notchr & H)%lang_cat_inv.
    apply lang_cat_inv in H as (a & w2 & -> & Ha & H). inversion Ha; subst.
    apply lang_cat_inv in H as (d & w3 & -> & [Hd Hd']%lang_plus_notchr & H).
    apply lang_cat_inv in H as (b & t & -> & Hb & [Ht Ht']%lang_plus_notchr).
    inversion Hb; subst. exists l, d, t. simpl. auto 10.
  - intros (l & d & t & -> & Hl & Hd & Ht & Hl' & Hd' & Ht').
    apply lang_cat; [apply lang_plus_notchr; auto|].
    apply (lang_cat _ _ ["@"%char]); [constructor|].
    apply lang_cat; [apply lang_plus_notchr; auto|].
    apply (lang_cat _ _ ["."%char]); [constructor|].
    apply lang_plus_notchr; auto.
Qed.

(** [re.match] finds the pattern of the source exactly on the strings of
    the shape [local@domain.tld]. *)
Lemma match_email_shape s :
  match_anchored email_pattern s = true <-> email_shape s.
Proof.
  unfold match_anchored, email_shape. rewrite orb_true_iff, fullmatch_lang.
  rewrite email_pattern_lang. split; [|auto].
  intros [H | H]; [exact H|].
  destruct (chop_newline _) as [w|] eqn:E; [|discriminate].
  apply chop_newline_Some in E. rewrite E.
  apply fullmatch_lang, email_pattern_lang in H
    as (l & d & t & -> & Hl & Hd & Ht & Hl' & Hd' & Ht').
  exists l, d, (t ++ ["010"%char]). repeat split; auto.
  - rewrite <- !app_assoc. simpl. rewrite <- app_assoc. reflexivity.
  - destruct t; discriminate.
  - intros [? | ?%list_elem_of_singleton]%elem_of_app; [auto | discriminate].
Qed.

Lemma check_rule_required value errors :
  check_rule value errors "required" =
  if is_None value || eq_empty_str value
  then Ok (errors ++ ["This field is required."]) else Ok errors.
Proof. reflexivity. Qed.

Lemma check_rule_email value errors :
  check_rule value errors "email" =
  if truth value then
    matched ← re_match_email value;
    if negb matched
    then Ok (errors ++ ["Must be a valid email address."])
    else Ok errors
  else Ok errors.
Proof. reflexivity. Qed.

Lemma startswith_cons s a p :
  PyString.startswith s (String a p) = true ->
  exists s', s = String a s' /\ PyString.startswith s' p = true.
Proof.
  destruct s as [|b s']; [discriminate|].
  change (Ascii.eqb a b && PyString.startswith s' p = true -> 
          exists s'0, String b s' = String a s'0
                      /\ PyString.startswith s'0 p = true).
  intros [Hab Hp]%andb_true_iff. apply Ascii.eqb_eq in Hab as ->. eauto.
Qed.

Lemma startswith_min_cases rule :
  PyString.startswith rule "min:" = true ->
  String.eqb rule "required" = false.
Proof. intros (s & -> & _)%startswith_cons. reflexivity. Qed.

Lemma startswith_max_cases rule :
  PyString.startswith rule "max:" = true ->
  String.eqb rule "required" = false
  /\ PyString.startswith rule "min:" = false.
Proof.
  intros (s & -> & (s' & -> & _)%startswith_cons)%startswith_cons.
  split; reflexivity.
Qed.

(** A rule appends its own messages to the list and changes nothing else
    of it. *)
Lemma check_rule_appends value errors rule :
  check_rule value errors rule =
  (msgs ← rule_messages value rule; Ok (errors ++ msgs)).
Proof.
  unfold rule_messages, check_rule.
  repeat (match goal with
          | |- context [if ?b then _ else _] => destruct b
          | |- context [rule_parameter ?r] => destruct (rule_parameter r)
          | |- context [re_match_email ?v] => destruct (re_match_email v)
          end; simpl);
    rewrite ?app_nil_r; reflexivity.
Qed.

Lemma check_rules_accumulates value errors rule_list msgs :
  Forall2 (fun rule m => rule_messages value rule = Ok m) rule_list msgs ->
  check_rules value errors rule_list = Ok (errors ++ concat msgs).
Proof.
  intros H. revert errors.
  induction H as [|rule m rule_list msgs Hm _ IH]; intros errors; simpl.
  - rewrite app_nil_r. reflexivity.
  - rewrite check_rule_appends, Hm. simpl. rewrite IH, app_assoc. reflexivity.
Qed.

(** The first rule that raises ends the loop with its exception. *)
Lemma check_rules_raises value errors before rule after msgs e :
  Forall2 (fun rule m => rule_messages value rule = Ok m) before msgs ->
  rule_messages value rule = Raise e ->
  check_rules value errors (before ++ rule :: after) = Raise e.
Proof.
  intros H He. revert errors.
  induction H as [|r m before msgs Hm _ IH]; intros errors; simpl.
  - rewrite check_rule_appends, He. reflexivity.
  - rewrite check_rule_appends, Hm. simpl. apply IH.
Qed.

End Validation.

(** C5 (as amended). Whenever every rule of the rule string evaluates on the
    value without raising, [_validate_property] has run all of them, in the
    order of declaration, and returns the messages of all the rules, one
    after the other and without removing duplicates: no rule, satisfied or
    violated, ends the loop. *)
Theorem validate_property_accumulates property_name value rules msgs :
  Forall2 (fun rule m => rule_messages value rule = Ok m)
    (rule_list_of rules) msgs ->
  _validate_property property_name value rules = Ok (concat msgs).
Proof.
  intros H. unfold _validate_property.
  rewrite (check_rules_accumulates value [] _ msgs H). reflexivity.
Qed.

Lemma validate_property_accumulates_witness :
  Forall2 (fun rule m => rule_messages (PyStr "ab") rule = Ok m)
    (rule_list_of "required|min:3 | min:3|email|bogus")
    [ []; ["Must be at least 3 characters."];
      ["Must be at least 3 characters."];
      ["Must be a valid email address."]; [] ]
  /\ _validate_property "name" (PyStr "ab")
       "required|min:3 | min:3|email|bogus"
     = Ok ["Must be at least 3 characters.";
           "Must be at least 3 characters.";
           "Must be a valid email address."].
Proof.
  assert (H : Forall2 (fun rule m => rule_messages (PyStr "ab") rule = Ok m)
                (rule_list_of "required|min:3 | min:3|email|bogus")
                [ []; ["Must be at least 3 characters."];
                  ["Must be at least 3 characters."];
                  ["Must be a valid email address."]; [] ]).
  { vm_compute. repeat constructor. }
  split; [exact H|].
  exact (validate_property_accumulates "name" (PyStr "ab")
           "required|min:3 | min:3|email|bogus" _ H).
Defined.

(** C5 fails as stated: on the integer 5 the rule [email] raises a
    [TypeError], so that the rule [min:10] after it, which 5 violates, is
    never evaluated and no list of messages is returned. *)
Lemma validate_property_stops_at_raise :
  rule_messages (PyInt 5) "min:10" = Ok ["Value must be at least 10."]
  /\ _validate_property "age" (PyInt 5) "email|min:10" = Raise TypeError
  /\ forall errors,
       _validate_property "age" (PyInt 5) "email|min:10" <> Ok errors.
Proof.
  assert (H : _validate_property "age" (PyInt 5) "email|min:10"
              = Raise TypeError) by (vm_compute; reflexivity).
  split; [vm_compute; reflexivity|]. split; [exact H|].
  intros errors. rewrite H. discriminate.
Qed.

(** C6 (as amended). On a non-empty string the rule [email] appends no
    message when the string has the shape [local@domain.tld], and exactly
    one message when it has not. *)
Theorem email_rule_on_nonempty_string s errors :
  s <> "" ->
  (email_shape s -> check_rule (PyStr s) errors "email" = Ok errors)
  /\ (~ email_shape s ->
      check_rule (PyStr s) errors "email"
      = Ok (errors ++ ["Must be a valid email address."])).
Proof.
  intros Hs. rewrite check_rule_email.
  assert (Ht : truth (PyStr s) = true).
  { simpl. destruct (String.eqb_spec s ""); [contradiction | reflexivity]. }
  rewrite Ht. simpl.
  destruct (Re.match_anchored email_pattern s) eqn:E; simpl.
  - apply match_email_shape in E. split; [reflexivity | contradiction].
  - split; [|reflexivity].
    intros H%match_email_shape. congruence.
Qed.

Lemma email_rule_on_nonempty_string_witness :
  "a@b.c" <> ""
  /\ check_rule (PyStr "a@b.c") ["earlier"] "email" = Ok ["earlier"]
  /\ check_rule (PyStr "a@b@c.d") ["earlier"] "email"
     = Ok ["earlier"; "Must be a valid email address."].
Proof.
  split; [discriminate|]. split.
  - apply (email_rule_on_nonempty_string "a@b.c" ["earlier"]); [discriminate|].
    apply match_email_shape. vm_compute. reflexivity.
  - apply (email_rule_on_nonempty_string "a@b@c.d" ["earlier"]); [discriminate|].
    intros H%match_email_shape. vm_compute in H. discriminate H.
Defined.

(** C6 fails as stated: the empty string has not the shape
    [local@domain.tld], and the rule [email] appends nothing for it. *)
Lemma email_rule_passes_empty_string :
  ~ email_shape "" /\ check_rule (PyStr "") [] "email" = Ok [].
Proof.
  split; [|reflexivity].
  intros H%match_email_shape. vm_compute in H. discriminate H.
Qed.

(** C7 (as amended). On a value that is an instance neither of [int] (of
    which [bool] is a subclass), nor of [float], nor of [str], such as
    [None], a list or a dictionary, the rules [min:N] and [max:N] with an
    integer [N] append no message. *)
Theorem min_max_skip_other_types value rule n errors :
  isinstance_int_float value = false ->
  isinstance_str value = false ->
  PyString.startswith rule "min:" = true
  \/ PyString.startswith rule "max:" = true ->
  rule_parameter rule = Ok n ->
  check_rule value errors rule = Ok errors.
Proof.
  intros Hnum Hstr Hrule Hn.
  assert (Hb : number_below value n = false /\ number_above value n = false).
  { unfold number_below, number_above, isinstance_int_float in *.
    destruct (as_number value); [|auto].
    rewrite bool_decide_eq_false in Hnum. destruct Hnum. eauto. }
  assert (Hl : str_shorter value n = false /\ str_longer value n = false).
  { destruct value; try discriminate Hstr; auto. }
  destruct Hb as [Hb1 Hb2], Hl as [Hl1 Hl2]. unfold check_rule.
  destruct Hrule as [Hmin | Hmax].
  - rewrite (startswith_min_cases _ Hmin), Hmin, Hn. simpl.
    rewrite Hb1, Hl1. reflexivity.
  - destruct (startswith_max_cases _ Hmax) as [-> ->]. rewrite Hmax, Hn. simpl.
    rewrite Hb2, Hl2. reflexivity.
Qed.

Lemma min_max_skip_other_types_witness :
  check_rule PyNone ["earlier"] "min:3" = Ok ["earlier"]
  /\ check_rule (PyList [PyInt 1]) [] "max:0" = Ok [].
Proof.
  split.
  - apply (min_max_skip_other_types PyNone "min:3" 3 ["earlier"]);
      [reflexivity | reflexivity | left; reflexivity | reflexivity].
  - apply (min_max_skip_other_types (PyList [PyInt 1]) "max:0" 0 []);
      [reflexivity | reflexivity | right; reflexivity | reflexivity].
Defined.

(** C7 fails as stated: a boolean is an instance of [int], so [min:2]
    rejects [True] and [max:0] rejects it as well. *)
Lemma min_max_compare_booleans :
  check_rule (PyBool true) [] "min:2" = Ok ["Value must be at least 2."]
  /\ check_rule (PyBool true) [] "max:0" = Ok ["Value must be at most 0."].
Proof. split; vm_compute; reflexivity. Qed.

(** ** The template resolver *)

Lemma probe_templates_none get_template class_name exts :
  (forall ext, ext ∈ exts ->
     get_template ("VoltWire/" +:+ class_name +:+ ext) = false) ->
  probe_templates get_template class_name exts = None.
Proof.
  induction exts as [|ext exts IH]; intros H; simpl; [reflexivity|].
  rewrite H by apply list_elem_of_here.
  apply IH. intros e He. apply H, list_elem_of_further, He.
Qed.

(** C3 (as amended). When the template store has none of the candidates,
    [get_template_name] returns, without raising, the name made of the
    namespace [VoltWire], the class name and the fixed extension [.html],
    whatever the configured list of extensions is. *)
Theorem get_template_name_fallback get_template self :
  (forall ext, ext ∈ template_extensions_of self ->
     get_template ("VoltWire/" +:+ cls_name self +:+ ext) = false) ->
  get_template_name get_template self
  = "VoltWire/" +:+ cls_name self +:+ ".html".
Proof.
  intros H. unfold get_template_name.
  rewrite (probe_templates_none _ _ _ H). reflexivity.
Qed.


(** C3 fails as stated: with the extensions [.vw.html] and [.html]
    configured in this order and no template in the store, the name returned
    ends in [.html], not in the first configured extension. *)
Lemma get_template_name_ignores_first_extension :
  template_extensions_of Examples.counter = [".vw.html"; ".html"]
  /\ get_template_name Examples.no_template Examples.counter
     = "VoltWire/Counter.html"
  /\ get_template_name Examples.no_template Examples.counter
     <> "VoltWire/" +:+ cls_name Examples.counter +:+ ".vw.html".
Proof. repeat split; vm_compute; congruence. Qed.

Lemma get_template_name_fallback_witness :
  get_template_name Examples.no_template Examples.counter
  = "VoltWire/" +:+ cls_name Examples.counter +:+ ".html".
Proof.
  apply (get_template_name_fallback Examples.no_template Examples.counter).
  intros ext _. reflexivity.
Defined.


(** ** The decorator [@validate] *)

Lemma validate_stores_on_function rules field :
  __name__ (validate rules field) = __name__ field
  /\ fn_validation_rules (validate rules field)
     = Some (<[__name__ field := rules]>
               (default ∅ (fn_validation_rules field))).
Proof.
  unfold validate. destruct (fn_validation_rules field) eqn:E; simpl.
  - rewrite E. split; reflexivity.
  - split; reflexivity.
Qed.


(** ** Dispatch *)

Lemma field_attrs_set_is_voltwire_request self b name :
  name <> "_is_voltwire_request" ->
  field_attrs (set_is_voltwire_request self b) !! name
  = field_attrs self !! name.
Proof.
  intros Hne. unfold field_attrs. simpl.
  destruct (_template_extensions self);
    rewrite !lookup_insert; repeat case_decide; congruence.
Qed.

Lemma field_attrs_is_voltwire_request self :
  is_Some (field_attrs self !! "_is_voltwire_request").
Proof.
  unfold field_attrs. destruct (_template_extensions self);
    vm_compute; eauto.
Qed.

Lemma getattr_set_is_voltwire_request self b name :
  name <> "_is_voltwire_request" ->
  getattr (set_is_voltwire_request self b) name = getattr self name.
Proof.
  intros Hne. unfold getattr.
  rewrite field_attrs_set_is_voltwire_request by exact Hne. reflexivity.
Qed.

Lemma hasattr_set_is_voltwire_request self b name :
  hasattr (set_is_voltwire_request self b) name = hasattr self name.
Proof.
  unfold hasattr. apply bool_decide_ext.
  destruct (decide (name = "_is_voltwire_request")) as [-> | Hne].
  - unfold getattr.
    destruct (field_attrs_is_voltwire_request self) as [v ->].
    destruct (field_attrs_is_voltwire_request
                (set_is_voltwire_request self b)) as [w ->].
    split; eauto.
  - rewrite getattr_set_is_voltwire_request by exact Hne. reflexivity.
Qed.

Lemma verb_handler_set_is_voltwire_request self b request :
  method request = "POST" ->
  verb_handler (set_is_voltwire_request self b) request
  = verb_handler self request.
Proof.
  intros Hm. unfold verb_handler. rewrite Hm.
  change (PyString.lower "POST") with "post".
  rewrite getattr_set_is_voltwire_request by discriminate. reflexivity.
Qed.

(** A reactive POST whose action is empty or names no attribute is handled
    by the verb handler. *)
Lemma dispatch_reactive_post self request :
  headers_get request "X-VoltWire-Request" = Some "true" ->
  method request = "POST" ->
  match POST request !! "voltwire_action" with
  | Some action => truth (PyStr action) && hasattr self action = false
  | None => True
  end ->
  dispatch self request
  = (set_is_voltwire_request self true,
     call_handler (verb_handler self request)).
Proof.
  intros Hh Hm Hp. unfold dispatch.
  rewrite Hh, (bool_decide_eq_true_2 (Some "true" = Some "true")) by reflexivity.
  cbn [_is_voltwire_request set_is_voltwire_request]. rewrite Hm.
  change (true && String.eqb "POST" "POST") with true. cbv iota.
  rewrite verb_handler_set_is_voltwire_request by exact Hm.
  destruct (POST request !! "voltwire_action") as [action|]; [|reflexivity].
  rewrite hasattr_set_is_voltwire_request, Hp. reflexivity.
Qed.

(** C1 (as amended). On a reactive POST whose [voltwire_action] names no
    attribute of the component, [dispatch] calls nothing on behalf of the
    action: it answers with the verb handler, exactly as it does for the
    same request without the field. *)
Theorem dispatch_unmatched_action self request action :
  headers_get request "X-VoltWire-Request" = Some "true" ->
  method request = "POST" ->
  POST request !! "voltwire_action" = Some action ->
  hasattr self action = false ->
  dispatch self request = dispatch self (without_action request)
  /\ (dispatch self request).2 = call_handler (verb_handler self request).
Proof.
  intros Hh Hm Hp Hhas.
  rewrite (dispatch_reactive_post self request Hh Hm)
    by (rewrite Hp, Hhas; apply andb_false_r).
  rewrite (dispatch_reactive_post self (without_action request) Hh Hm)
    by (simpl; rewrite lookup_delete_eq; exact I).
  split; reflexivity.
Qed.

Lemma dispatch_unmatched_action_witness :
  hasattr Examples.counter "save" = false
  /\ dispatch Examples.counter
       (Examples.reactive_post [("voltwire_action", "save")])
     = dispatch Examples.counter
         (without_action
            (Examples.reactive_post [("voltwire_action", "save")]))
  /\ (dispatch Examples.counter
        (Examples.reactive_post [("voltwire_action", "save")])).2
     = call_handler
         (verb_handler Examples.counter
            (Examples.reactive_post [("voltwire_action", "save")])).
Proof.
  split; [reflexivity|].
  apply (dispatch_unmatched_action Examples.counter
           (Examples.reactive_post [("voltwire_action", "save")]) "save");
    reflexivity.
Defined.

(** C1 fails as stated: [Counter] has no attribute [save], and a reactive
    POST with [voltwire_action=save] is not rejected. It is answered by the
    handler [post], as the same POST without any action is. *)
Lemma dispatch_unknown_action_falls_through :
  hasattr Examples.counter "save" = false
  /\ (dispatch Examples.counter
        (Examples.reactive_post [("voltwire_action", "save")])).2
     = Ok (Called (method_named "post"))
  /\ dispatch Examples.counter
       (Examples.reactive_post [("voltwire_action", "save")])
     = dispatch Examples.counter (Examples.reactive_post []).
Proof. repeat split; vm_compute; reflexivity. Qed.

(** Any attribute the action names is called, the private methods of
    [VoltWireComponent] included. *)
Lemma dispatch_reaches_private_method :
  (dispatch Examples.counter
     (Examples.reactive_post
        [("voltwire_action", "_initialize_properties")])).2
  = Ok (Called (method_named "_initialize_properties")).
Proof. vm_compute. reflexivity. Qed.

(** ** [is_valid] *)

Section IsValid.
Variable self : component.

Lemma is_valid_loop_runs items : forall e,
  (forall f rules e0 v,
     (f, rules) ∈ items -> getattr (set_errors self e0) f = Some v ->
     exists errs, _validate_property f v rules = Ok errs) ->
  exists e',
    is_valid_loop (set_errors self e) items = (set_errors self e', Ok ())
    /\ (e <> ∅ -> e' <> ∅)
    /\ (e = ∅ ->
        (e' = ∅ <->
         forall f rules v,
           (f, rules) ∈ items ->
           getattr (set_errors self ∅) f = Some v ->
           _validate_property f v rules = Ok []))
    /\ (forall f errs,
          e' !! f = Some errs ->
          e !! f = Some errs
          \/ (errs <> []
              /\ exists rules e0 v,
                   (f, rules) ∈ items
                   /\ getattr (set_errors self e0) f = Some v
                   /\ _validate_property f v rules = Ok errs)).
Proof.
  induction items as [|[f rules] items IH]; intros e Hraise.
  - exists e. split; [reflexivity|]. split; [auto|]. split; [|auto].
    intros ->. split; [|reflexivity].
    intros _ f rules v Hin. apply elem_of_nil in Hin. contradiction.
  - assert (Hrest : forall f0 rules0 e0 v,
              (f0, rules0) ∈ items ->
              getattr (set_errors self e0) f0 = Some v ->
              exists errs, _validate_property f0 v rules0 = Ok errs).
    { intros f0 rules0 e0 v Hin. apply Hraise, list_elem_of_further, Hin. }
    cbn [is_valid_loop]. unfold hasattr.
    destruct (getattr (set_errors self e) f) as [v|] eqn:Hg.
    + rewrite bool_decide_eq_true_2 by eauto.
      destruct (Hraise f rules e v (list_elem_of_here _ _) Hg) as [errs Hv].
      rewrite Hv. destruct (decide (errs = [])) as [-> | Hne].
      * rewrite bool_decide_eq_true_2 by reflexivity.
        destruct (IH e Hrest) as (e' & Hrun & Hkeep & Hclean & Hfrom).
        exists e'. split; [exact Hrun|]. split; [exact Hkeep|]. split.
        -- intros ->. rewrite (Hclean eq_refl). split.
           ++ intros Hall f0 rules0 v0 [[= -> ->] | Hin]%elem_of_cons Hg0.
              ** congruence.
              ** eapply Hall; eauto.
           ++ intros Hall f0 rules0 v0 Hin.
              apply Hall, list_elem_of_further, Hin.
        -- intros f0 errs0 [Hold | (Hne & rules0 & e0 & v0 & Hin & Hrest')]%Hfrom;
             [left; exact Hold | right].
           split; [exact Hne|]. exists rules0, e0, v0.
           split; [apply list_elem_of_further, Hin | exact Hrest'].
      * rewrite bool_decide_eq_false_2 by exact Hne.
        change (set_errors (set_errors self e)
                  (<[f := errs]> (_errors (set_errors self e))))
          with (set_errors self (<[f := errs]> e)).
        destruct (IH (<[f := errs]> e) Hrest)
          as (e' & Hrun & Hkeep & _ & Hfrom).
        assert (He' : e' <> ∅) by apply Hkeep, insert_non_empty.
        exists e'. split; [exact Hrun|]. split; [auto|]. split.
        -- intros ->. split; [contradiction|]. intros Hall.
           specialize (Hall f rules v (list_elem_of_here _ _) Hg). congruence.
        -- intros f0 errs0 [Hold | (Hne0 & rules0 & e0 & v0 & Hin & Hrest')]%Hfrom.
           ++ destruct (decide (f = f0)) as [<- | Hf].
              ** rewrite lookup_insert_eq in Hold. injection Hold as <-.
                 right. split; [exact Hne|]. exists rules, e, v.
                 split; [apply list_elem_of_here | auto].
              ** rewrite lookup_insert_ne in Hold by exact Hf. left. exact Hold.
           ++ right. split; [exact Hne0|]. exists rules0, e0, v0.
              split; [apply list_elem_of_further, Hin | exact Hrest'].
    + rewrite bool_decide_eq_false_2 by (intros [? [=]]).
      destruct (IH e Hrest) as (e' & Hrun & Hkeep & Hclean & Hfrom).
      exists e'. split; [exact Hrun|]. split; [exact Hkeep|]. split.
      * intros ->. rewrite (Hclean eq_refl). split.
        -- intros Hall f0 rules0 v0 [[= -> ->] | Hin]%elem_of_cons Hg0.
           ++ congruence.
           ++ eapply Hall; eauto.
        -- intros Hall f0 rules0 v0 Hin.
           apply Hall, list_elem_of_further, Hin.
      * intros f0 errs0 [Hold | (Hne & rules0 & e0 & v0 & Hin & Hrest')]%Hfrom;
          [left; exact Hold | right].
        split; [exact Hne|]. exists rules0, e0, v0.
        split; [apply list_elem_of_further, Hin | exact Hrest'].
Qed.

End IsValid.


Section IsValidRecords.
Variable self : component.

(** A declared field whose rules produce messages has an entry when the
    loop ends, whatever the fields before and after it produce. *)
Lemma is_valid_loop_records items : forall e e',
  is_valid_loop (set_errors self e) items = (set_errors self e', Ok ()) ->
  (forall f, is_Some (e !! f) -> is_Some (e' !! f))
  /\ forall f rules v errs,
       (f, rules) ∈ items ->
       (forall e0, getattr (set_errors self e0) f = Some v) ->
       _validate_property f v rules = Ok errs ->
       errs <> [] ->
       is_Some (e' !! f).
Proof.
  induction items as [|[f rules] items IH]; intros e e'; cbn [is_valid_loop].
  - intros [= <-]. split; [auto|]. intros f rules v errs Hin.
    apply elem_of_nil in Hin. contradiction.
  - unfold hasattr.
    destruct (getattr (set_errors self e) f) as [v|] eqn:Hg.
    + rewrite bool_decide_eq_true_2 by eauto.
      destruct (_validate_property f v rules) as [errs|] eqn:Hv;
        [|discriminate].
      destruct (decide (errs = [])) as [-> | Hne].
      * rewrite bool_decide_eq_true_2 by reflexivity. intros Hrun.
        destruct (IH e e' Hrun) as [Hkeep Hrec]. split; [exact Hkeep|].
        intros f0 rules0 v0 errs0 [[= -> ->] | Hin]%elem_of_cons Hg0 Hv0 Hne0.
        -- rewrite Hg0 in Hg. injection Hg as ->. congruence.
        -- eapply Hrec; eauto.
      * rewrite bool_decide_eq_false_2 by exact Hne.
        change (set_errors (set_errors self e)
                  (<[f := errs]> (_errors (set_errors self e))))
          with (set_errors self (<[f := errs]> e)).
        intros Hrun. destruct (IH _ e' Hrun) as [Hkeep Hrec]. split.
        -- intros f0 Hf0. apply Hkeep. rewrite lookup_insert.
           case_decide; [eauto | exact Hf0].
        -- intros f0 rules0 v0 errs0 [[= -> ->] | Hin]%elem_of_cons Hg0 Hv0 Hne0.
           ++ apply Hkeep. rewrite lookup_insert_eq. eauto.
           ++ eapply Hrec; eauto.
    + rewrite bool_decide_eq_false_2 by (intros [? [=]]). intros Hrun.
      destruct (IH e e' Hrun) as [Hkeep Hrec]. split; [exact Hkeep|].
      intros f0 rules0 v0 errs0 [[= -> ->] | Hin]%elem_of_cons Hg0 Hv0 Hne0.
      * rewrite Hg0 in Hg. discriminate.
      * eapply Hrec; eauto.
Qed.

End IsValidRecords.

Lemma NoDup_fst_agree {A B : Type} (l : list (A * B)) k a b :
  NoDup l.*1 -> (k, a) ∈ l -> (k, b) ∈ l -> a = b.
Proof.
  induction l as [|[k0 c] l IH]; intros Hnd Ha Hb;
    [apply elem_of_nil in Ha; contradiction|].
  cbn [fmap list_fmap fst] in Hnd. apply NoDup_cons in Hnd as [Hk0 Hnd].
  apply elem_of_cons in Ha as [Ha | Ha];
    apply elem_of_cons in Hb as [Hb | Hb].
  - congruence.
  - injection Ha as -> ->. destruct Hk0.
    apply (list_elem_of_fmap_2 fst _ _ Hb).
  - injection Hb as -> ->. destruct Hk0.
    apply (list_elem_of_fmap_2 fst _ _ Ha).
  - apply IH; assumption.
Qed.

(** C2 (as amended). Provided no declared rule raises on the attribute it
    is declared for, [is_valid] forgets the errors accumulated before, runs
    the validation engine on every declared pair whose field is an attribute
    of the instance, skipping the declared fields the instance has not, and
    returns true exactly when none of the fields it checked has an error.
    Every pair is evaluated, none is cut short by an earlier failure: the
    errors it leaves are non-empty lists the engine returned for declared
    fields, every declared field whose rules produce messages has an entry,
    and, the field names being distinct as the keys of a dictionary are, the
    entry of a field is exactly the list the engine returns for it. *)
Theorem is_valid_checks_present_fields self :
  (forall f rules e v,
     (f, rules) ∈ _validation_rules self ->
     getattr (set_errors self e) f = Some v ->
     exists errs, _validate_property f v rules = Ok errs) ->
  exists e' b,
    is_valid self = (set_errors self e', Ok b)
    /\ (forall e, is_valid (set_errors self e) = is_valid self)
    /\ (b = true <-> e' = ∅)
    /\ (b = true <->
        forall f rules v,
          (f, rules) ∈ _validation_rules self ->
          getattr (set_errors self ∅) f = Some v ->
          _validate_property f v rules = Ok [])
    /\ (forall f errs,
          e' !! f = Some errs ->
          errs <> []
          /\ exists rules e v,
               (f, rules) ∈ _validation_rules self
               /\ getattr (set_errors self e) f = Some v
               /\ _validate_property f v rules = Ok errs)
    /\ (forall f rules v errs,
          (f, rules) ∈ _validation_rules self ->
          (forall e, getattr (set_errors self e) f = Some v) ->
          _validate_property f v rules = Ok errs ->
          errs <> [] ->
          is_Some (e' !! f))
    /\ (NoDup (_validation_rules self).*1 ->
        forall f rules v errs,
          (f, rules) ∈ _validation_rules self ->
          (forall e, getattr (set_errors self e) f = Some v) ->
          _validate_property f v rules = Ok errs ->
          e' !! f = if bool_decide (errs = []) then None else Some errs).
Proof.
  intros Hraise.
  destruct (is_valid_loop_runs self (_validation_rules self) ∅ Hraise)
    as (e' & Hrun & _ & Hclean & Hfrom).
  destruct (is_valid_loop_records self _ _ _ Hrun) as [_ Hrec].
  exists e', (bool_decide (size e' = 0%nat)).
  assert (Hb : bool_decide (size e' = 0%nat) = true <-> e' = ∅).
  { rewrite bool_decide_eq_true. apply map_size_empty_iff. }
  assert (Hsound : forall f errs,
            e' !! f = Some errs ->
            errs <> []
            /\ exists rules e v,
                 (f, rules) ∈ _validation_rules self
                 /\ getattr (set_errors self e) f = Some v
                 /\ _validate_property f v rules = Ok errs).
  { intros f errs [Hold | H]%Hfrom; [|exact H].
    rewrite lookup_empty in Hold. discriminate. }
  split.
  { unfold is_valid.
    change (_validation_rules (set_errors self ∅))
      with (_validation_rules self).
    rewrite Hrun. reflexivity. }
  split; [reflexivity|]. split; [exact Hb|]. split.
  { rewrite Hb. apply Hclean. reflexivity. }
  split; [exact Hsound|]. split; [exact Hrec|].
  intros Hnd f rules v errs Hin Hg Hv.
  destruct (e' !! f) as [errs'|] eqn:Hf.
  - destruct (Hsound f errs' Hf) as (Hne & rules' & e0 & v' & Hin' & Hg' & Hv').
    rewrite Hg in Hg'. injection Hg' as <-.
    rewrite (NoDup_fst_agree _ _ _ _ Hnd Hin' Hin) in Hv'.
    assert (errs' = errs) as -> by congruence.
    rewrite bool_decide_eq_false_2 by exact Hne. reflexivity.
  - destruct (decide (errs = [])) as [-> | Hne]; [reflexivity|].
    destruct (Hrec f rules v errs Hin Hg Hv Hne) as [x Hx]. congruence.
Qed.

Lemma is_valid_checks_present_fields_witness :
  exists e',
    is_valid Examples.applicant = (set_errors Examples.applicant e', Ok false)
    /\ e' !! "name" = Some ["Must be at least 3 characters."]
    /\ e' !! "age" = Some ["Value must be at least 18."]
    /\ e' !! "nickname" = None.
Proof.
  assert (H : forall f rules e v,
            (f, rules) ∈ _validation_rules Examples.applicant ->
            getattr (set_errors Examples.applicant e) f = Some v ->
            exists errs, _validate_property f v rules = Ok errs).
  { intros f rules e v Hin Hg.
    change (_validation_rules Examples.applicant)
      with [("name", "required|min:3"); ("age", "min:18");
            ("nickname", "required")] in Hin.
    repeat (apply elem_of_cons in Hin as [[= -> ->] | Hin]);
      [| | |apply elem_of_nil in Hin; contradiction];
      vm_compute in Hg; injection Hg as <- || discriminate Hg;
      eexists; vm_compute; reflexivity. }
  assert (Hnd : NoDup (_validation_rules Examples.applicant).*1).
  { apply (bool_decide_unpack _). vm_compute. exact I. }
  destruct (is_valid_checks_present_fields Examples.applicant H)
    as (e' & b & Hrun & _ & Hb & _ & Hsound & _ & Hexact).
  assert (Hname : e' !! "name" = Some ["Must be at least 3 characters."]).
  { rewrite (Hexact Hnd "name" "required|min:3" (PyStr "ab")
               ["Must be at least 3 characters."]); [reflexivity|..].
    - apply (bool_decide_unpack _). vm_compute. exact I.
    - intros e. vm_compute. reflexivity.
    - vm_compute. reflexivity. }
  assert (Hage : e' !! "age" = Some ["Value must be at least 18."]).
  { rewrite (Hexact Hnd "age" "min:18" (PyInt 16)
               ["Value must be at least 18."]); [reflexivity|..].
    - apply (bool_decide_unpack _). vm_compute. exact I.
    - intros e. vm_compute. reflexivity.
    - vm_compute. reflexivity. }
  assert (b = false) as ->.
  { destruct b; [|reflexivity]. rewrite (proj1 Hb eq_refl) in Hname.
    rewrite lookup_empty in Hname. discriminate. }
  exists e'. split; [exact Hrun|]. split; [exact Hname|].
  split; [exact Hage|].
  destruct (e' !! "nickname") as [errs|] eqn:Hn; [|reflexivity].
  destruct (Hsound _ _ Hn) as (_ & rules & e & v & _ & Hg & _).
  vm_compute in Hg. discriminate.
Defined.

(** C2 fails as stated: [Signup] declares the rule [required] for the
    field [email] and has no attribute of that name. The validation engine
    reports an absent value under [required], but [is_valid] never submits
    the pair to it and returns true with no error. *)
Lemma is_valid_skips_missing_field :
  _validation_rules Examples.signup = [("email", "required")]
  /\ hasattr Examples.signup "email" = false
  /\ _validate_property "email" PyNone "required"
     = Ok ["This field is required."]
  /\ (is_valid Examples.signup).2 = Ok true
  /\ _errors (is_valid Examples.signup).1 = ∅.
Proof. repeat split; vm_compute; reflexivity. Qed.

(** ** Strings *)

Section Strings.

Lemma append_cons c s t : String c s +:+ t = String c (s +:+ t).
Proof. reflexivity. Qed.

Lemma append_empty_r s : s +:+ "" = s.
Proof.
  induction s as [|c s IH]; [reflexivity|]. rewrite append_cons, IH.
  reflexivity.
Qed.

Lemma string_append_assoc s t u : (s +:+ t) +:+ u = s +:+ (t +:+ u).
Proof.
  induction s as [|c s IH]; [reflexivity|].
  rewrite !append_cons, IH. reflexivity.
Qed.

Lemma rev_app_rev_app s1 : forall s2 s3,
  String.rev_app (String.rev_app s1 s2) s3 = String.rev_app s2 (s1 +:+ s3).
Proof.
  induction s1 as [|c s1 IH]; intros s2 s3; [reflexivity|].
  cbn [String.rev_app]. rewrite IH. reflexivity.
Qed.

Lemma string_rev_involutive s : String.rev (String.rev s) = s.
Proof.
  unfold String.rev. rewrite rev_app_rev_app. cbn [String.rev_app].
  apply append_empty_r.
Qed.

Lemma string_forall_app p s t :
  string_forall p (s +:+ t) = string_forall p s && string_forall p t.
Proof.
  induction s as [|c s IH]; [reflexivity|].
  rewrite append_cons. cbn [string_forall]. rewrite IH, andb_assoc. reflexivity.
Qed.

Lemma string_forall_rev_app p s1 : forall s2,
  string_forall p (String.rev_app s1 s2)
  = string_forall p s1 && string_forall p s2.
Proof.
  induction s1 as [|c s1 IH]; intros s2; [reflexivity|].
  cbn [String.rev_app string_forall]. rewrite IH. cbn [string_forall].
  destruct (p c), (string_forall p s1); reflexivity.
Qed.

Lemma string_forall_rev p s :
  string_forall p (String.rev s) = string_forall p s.
Proof.
  unfold String.rev. rewrite string_forall_rev_app. apply andb_true_r.
Qed.

Lemma string_forall_impl (p q : ascii -> bool) s :
  (forall c, p c = true -> q c = true) ->
  string_forall p s = true -> string_forall q s = true.
Proof.
  intros Hpq. induction s as [|c s IH]; [reflexivity|].
  cbn [string_forall]. rewrite !andb_true_iff. intros [Hc Hs]. auto.
Qed.

(** [int] strips nothing off a string without white space. *)
Lemma int_lstrip_id s :
  string_forall (fun c => negb (PyString.int_space c)) s = true ->
  PyString.int_lstrip s = s.
Proof.
  destruct s as [|c s]; [reflexivity|]. cbn [string_forall PyString.int_lstrip].
  intros [Hc _]%andb_true_iff. apply negb_true_iff in Hc. rewrite Hc.
  reflexivity.
Qed.

Lemma int_strip_id s :
  string_forall (fun c => negb (PyString.int_space c)) s = true ->
  PyString.int_strip s = s.
Proof.
  intros H. unfold PyString.int_strip.
  rewrite (int_lstrip_id s H), int_lstrip_id by (rewrite string_forall_rev; exact H).
  apply string_rev_involutive.
Qed.

(** A string without the separator is its own single piece. *)
Lemma split_no_sep sep s :
  string_forall (fun c => negb (Ascii.eqb c sep)) s = true ->
  PyString.split sep s = [s].
Proof.
  induction s as [|c s IH]; [reflexivity|].
  cbn [string_forall PyString.split]. intros [Hc Hs]%andb_true_iff.
  apply negb_true_iff in Hc. rewrite Hc, (IH Hs). reflexivity.
Qed.

Lemma split_nonempty sep s : PyString.split sep s <> [].
Proof.
  destruct s as [|c s]; [discriminate|]. cbn [PyString.split].
  destruct (Ascii.eqb c sep); [discriminate|].
  destruct (PyString.split sep s); discriminate.
Qed.

Lemma split_app sep s1 s2 :
  PyString.split sep (s1 +:+ String sep s2)
  = PyString.split sep s1 ++ PyString.split sep s2.
Proof.
  induction s1 as [|c s1 IH].
  - change ("" +:+ String sep s2) with (String sep s2).
    cbn [PyString.split]. rewrite Ascii.eqb_refl. reflexivity.
  - rewrite append_cons. cbn [PyString.split]. rewrite IH.
    destruct (Ascii.eqb c sep); [reflexivity|].
    destruct (PyString.split sep s1) as [|p ps] eqn:E; [|reflexivity].
    destruct (split_nonempty _ _ E).
Qed.

End Strings.

(** ** [int(str(n))] *)

Section IntOfStr.

Lemma digit_pretty_N_char d :
  (d < 10)%N -> PyString.digit (pretty_N_char d) = Some (Z.of_N d).
Proof.
  intros Hd.
  assert (d = 0 \/ d = 1 \/ d = 2 \/ d = 3 \/ d = 4 \/ d = 5 \/ d = 6
          \/ d = 7 \/ d = 8 \/ d = 9)%N as H by lia.
  repeat (destruct H as [-> | H]; [reflexivity|]). subst d. reflexivity.
Qed.

Lemma digits_of_digit c d acc b s :
  PyString.digit c = Some d ->
  PyString.digits acc b (String c s) = PyString.digits (10 * acc + d) true s.
Proof. intros H. cbn [PyString.digits]. rewrite H. reflexivity. Qed.

Lemma is_digit_Some c : is_digit c = true -> exists d, PyString.digit c = Some d.
Proof. unfold is_digit. intros [d Hd]%bool_decide_eq_true. eauto. Qed.

Lemma digits_all_digits ds : forall acc t,
  string_forall is_digit ds = true ->
  PyString.digits acc true (ds +:+ t)
  = PyString.digits (decimal_value acc ds) true t.
Proof.
  induction ds as [|c ds IH]; intros acc t; [reflexivity|].
  cbn [string_forall]. intros [[d Hd]%is_digit_Some Hds]%andb_true_iff.
  rewrite append_cons, (digits_of_digit c d) by exact Hd.
  rewrite IH by exact Hds. cbn [decimal_value]. rewrite Hd. reflexivity.
Qed.

(** A non-empty string of digits is read as the number it denotes. *)
Lemma digits_decimal ds :
  ds <> "" -> string_forall is_digit ds = true ->
  PyString.digits 0 false ds = Some (decimal_value 0 ds).
Proof.
  destruct ds as [|c ds]; [congruence|]. intros _.
  cbn [string_forall]. intros [[d Hd]%is_digit_Some Hds]%andb_true_iff.
  rewrite (digits_of_digit c d) by exact Hd.
  rewrite <- (append_empty_r ds) at 1. rewrite digits_all_digits by exact Hds.
  cbn [decimal_value PyString.digits]. rewrite Hd. reflexivity.
Qed.

Lemma decimal_value_snoc ds : forall acc c d,
  PyString.digit c = Some d ->
  decimal_value acc (ds +:+ String c "") = (10 * decimal_value acc ds + d)%Z.
Proof.
  induction ds as [|c0 ds IH]; intros acc c d Hd.
  - change ("" +:+ String c "") with (String c "").
    cbn [decimal_value]. rewrite Hd. reflexivity.
  - rewrite append_cons. cbn [decimal_value]. apply IH, Hd.
Qed.

(** [pretty_N_go x s] writes the decimal digits of [x] in front of [s]. *)
Lemma pretty_N_go_decimal x :
  (0 < x)%N ->
  exists ds,
    ds <> "" /\ string_forall is_digit ds = true
    /\ decimal_value 0 ds = Z.of_N x
    /\ forall s, pretty_N_go x s = ds +:+ s.
Proof.
  induction (N.lt_wf_0 x) as [x _ IH]. intros Hx.
  assert (Hmod : (x `mod` 10 < 10)%N) by (apply N.mod_lt; discriminate).
  pose proof (digit_pretty_N_char _ Hmod) as Hd.
  destruct (decide (x `div` 10 = 0)%N) as [Hq | Hq].
  - exists (String (pretty_N_char (x `mod` 10)) "").
    split; [discriminate|]. split.
    { cbn [string_forall]. unfold is_digit. rewrite Hd.
      rewrite bool_decide_eq_true_2 by eauto. reflexivity. }
    split.
    { cbn [decimal_value]. rewrite Hd. cbn [from_option id].
      pose proof (N.div_mod x 10 ltac:(discriminate)). lia. }
    intros s. rewrite pretty_N_go_step by exact Hx. rewrite Hq.
    rewrite pretty_N_go_0. reflexivity.
  - destruct (IH (x `div` 10)%N) as (ds & Hne & Hall & Hval & Hgo).
    { apply N.div_lt; [exact Hx | reflexivity]. }
    { apply N.neq_0_lt_0, Hq. }
    exists (ds +:+ String (pretty_N_char (x `mod` 10)) "").
    split; [destruct ds; [congruence | discriminate]|]. split.
    { rewrite string_forall_app, Hall. cbn [string_forall]. unfold is_digit.
      rewrite Hd. rewrite bool_decide_eq_true_2 by eauto. reflexivity. }
    split.
    { rewrite (decimal_value_snoc ds 0 _ _ Hd), Hval.
      pose proof (N.div_mod x 10 ltac:(discriminate)). lia. }
    intros s. rewrite pretty_N_go_step by exact Hx. rewrite Hgo.
    rewrite string_append_assoc. reflexivity.
Qed.

Lemma pretty_positive_decimal p :
  exists ds,
    pretty (Z.pos p) = ds /\ ds <> "" /\ string_forall is_digit ds = true
    /\ decimal_value 0 ds = Z.pos p.
Proof.
  destruct (pretty_N_go_decimal (N.pos p) ltac:(reflexivity))
    as (ds & Hne & Hall & Hval & Hgo).
  exists ds. split; [|auto].
  change (pretty (Z.pos p)) with (pretty_N_go (N.pos p) "").
  rewrite Hgo. apply append_empty_r.
Qed.

Lemma digit_not_int_space c :
  is_digit c = true -> negb (PyString.int_space c) = true.
Proof.
  destruct c as [[] [] [] [] [] [] [] []]; vm_compute; congruence.
Qed.

Lemma digit_not_colon c :
  is_digit c = true -> negb (Ascii.eqb c ":") = true.
Proof.
  destruct c as [[] [] [] [] [] [] [] []]; vm_compute; congruence.
Qed.

(** A literal that starts with a digit carries no sign. *)
Lemma int_unsigned c s :
  is_digit c = true ->
  PyString.int_strip (String c s) = String c s ->
  PyString.int (String c s) = PyString.digits 0 false (String c s).
Proof.
  intros Hc Hs. unfold PyString.int. rewrite Hs.
  destruct c as [[] [] [] [] [] [] [] []]; vm_compute in Hc;
    try discriminate Hc; reflexivity.
Qed.

(** Reading back the decimal form of an integer gives the integer. *)
Lemma int_of_int n : PyString.int (PyString.of_int n) = Some n.
Proof.
  unfold PyString.of_int. destruct n as [|p|p].
  - reflexivity.
  - destruct (pretty_positive_decimal p) as (ds & -> & Hne & Hall & Hval).
    assert (Hstrip : PyString.int_strip ds = ds).
    { apply int_strip_id.
      eapply string_forall_impl; [apply digit_not_int_space | exact Hall]. }
    destruct ds as [|c ds]; [congruence|].
    rewrite int_unsigned; [| |exact Hstrip].
    + rewrite digits_decimal by (exact Hne || exact Hall). rewrite Hval.
      reflexivity.
    + cbn [string_forall] in Hall. apply andb_true_iff in Hall as [H _].
      exact H.
  - destruct (pretty_positive_decimal p) as (ds & Hds & Hne & Hall & Hval).
    change (pretty (Z.neg p)) with ("-" +:+ pretty (Z.pos p)).
    rewrite Hds. change ("-" +:+ ds) with (String "-" ds).
    unfold PyString.int. rewrite int_strip_id.
    + rewrite digits_decimal by (exact Hne || exact Hall). rewrite Hval.
      reflexivity.
    + cbn [string_forall]. apply andb_true_iff. split; [reflexivity|].
      eapply string_forall_impl; [apply digit_not_int_space | exact Hall].
Qed.

Lemma of_int_no_colon n :
  string_forall (fun c => negb (Ascii.eqb c ":")) (PyString.of_int n) = true.
Proof.
  unfold PyString.of_int. destruct n as [|p|p].
  - reflexivity.
  - destruct (pretty_positive_decimal p) as (ds & -> & _ & Hall & _).
    eapply string_forall_impl; [apply digit_not_colon | exact Hall].
  - destruct (pretty_positive_decimal p) as (ds & Hds & _ & Hall & _).
    change (pretty (Z.neg p)) with ("-" +:+ pretty (Z.pos p)).
    rewrite Hds. change ("-" +:+ ds) with (String "-" ds).
    cbn [string_forall]. apply andb_true_iff. split; [reflexivity|].
    eapply string_forall_impl; [apply digit_not_colon | exact Hall].
Qed.

(** The parameter of a rule written [name:N] with a three-letter name. *)
Lemma rule_parameter_of_int a b c n :
  Ascii.eqb a ":" = false -> Ascii.eqb b ":" = false ->
  Ascii.eqb c ":" = false ->
  rule_parameter
    (String a (String b (String c (String ":" (PyString.of_int n)))))
  = Ok n.
Proof.
  intros Ha Hb Hc. unfold rule_parameter.
  change (String a (String b (String c (String ":" (PyString.of_int n)))))
    with (String a (String b (String c "")) +:+ String ":" (PyString.of_int n)).
  rewrite split_app, (split_no_sep ":" (PyString.of_int n))
    by apply of_int_no_colon.
  rewrite (split_no_sep ":" (String a (String b (String c ""))))
    by (cbn [string_forall]; rewrite Ha, Hb, Hc; reflexivity).
  cbn. rewrite int_of_int. reflexivity.
Qed.

End IntOfStr.

(** ** More on the validation engine *)

Lemma startswith_append p t : PyString.startswith (p +:+ t) p = true.
Proof.
  induction p as [|c p IH]; [destruct t; reflexivity|].
  rewrite append_cons. cbn [PyString.startswith].
  rewrite Ascii.eqb_refl, IH. reflexivity.
Qed.

(** X1. On an integer value, [min:N] appends its message exactly when the
    value is below [N] and [max:N] exactly when it is above [N], [N] being
    written in decimal: both bounds are inclusive. *)
Theorem min_max_rule_on_int n N errors :
  check_rule (PyInt n) errors ("min:" +:+ PyString.of_int N)
  = Ok (if (n <? N)%Z
        then errors ++ ["Value must be at least " +:+ PyString.of_int N +:+ "."]
        else errors)
  /\ check_rule (PyInt n) errors ("max:" +:+ PyString.of_int N)
     = Ok (if (N <? n)%Z
           then errors ++ ["Value must be at most " +:+ PyString.of_int N +:+ "."]
           else errors).
Proof.
  split; unfold check_rule.
  - change (String.eqb ("min:" +:+ PyString.of_int N) "required") with false.
    rewrite (startswith_append "min:"). cbv iota.
    assert (Hp : rule_parameter ("min:" +:+ PyString.of_int N) = Ok N)
      by (apply (rule_parameter_of_int "m" "i" "n"); reflexivity).
    rewrite Hp.
    cbn [mbind result_bind rbind]. unfold number_below, str_shorter. simpl.
    destruct (n <? N)%Z; reflexivity.
  - change (String.eqb ("max:" +:+ PyString.of_int N) "required") with false.
    change (PyString.startswith ("max:" +:+ PyString.of_int N) "min:") with false.
    rewrite (startswith_append "max:"). cbv iota.
    assert (Hp : rule_parameter ("max:" +:+ PyString.of_int N) = Ok N)
      by (apply (rule_parameter_of_int "m" "a" "x"); reflexivity).
    rewrite Hp.
    cbn [mbind result_bind rbind]. unfold number_above, str_longer. simpl.
    destruct (N <? n)%Z; reflexivity.
Qed.

(** X2. On a string value, [min:N] appends its message exactly when the
    string has fewer than [N] characters and [max:N] exactly when it has
    more than [N]. *)
Theorem min_max_rule_on_str s N errors :
  check_rule (PyStr s) errors ("min:" +:+ PyString.of_int N)
  = Ok (if (PyString.len s <? N)%Z
        then errors ++ ["Must be at least " +:+ PyString.of_int N
                        +:+ " characters."]
        else errors)
  /\ check_rule (PyStr s) errors ("max:" +:+ PyString.of_int N)
     = Ok (if (N <? PyString.len s)%Z
           then errors ++ ["Must be at most " +:+ PyString.of_int N
                           +:+ " characters."]
           else errors).
Proof.
  split; unfold check_rule.
  - change (String.eqb ("min:" +:+ PyString.of_int N) "required") with false.
    rewrite (startswith_append "min:"). cbv iota.
    assert (Hp : rule_parameter ("min:" +:+ PyString.of_int N) = Ok N)
      by (apply (rule_parameter_of_int "m" "i" "n"); reflexivity).
    rewrite Hp.
    cbn [mbind result_bind rbind]. unfold number_below, str_shorter. simpl.
    destruct (PyString.len s <? N)%Z; reflexivity.
  - change (String.eqb ("max:" +:+ PyString.of_int N) "required") with false.
    change (PyString.startswith ("max:" +:+ PyString.of_int N) "min:") with false.
    rewrite (startswith_append "max:"). cbv iota.
    assert (Hp : rule_parameter ("max:" +:+ PyString.of_int N) = Ok N)
      by (apply (rule_parameter_of_int "m" "a" "x"); reflexivity).
    rewrite Hp.
    cbn [mbind result_bind rbind]. unfold number_above, str_longer. simpl.
    destruct (N <? PyString.len s)%Z; reflexivity.
Qed.

Lemma check_rules_from_nil value rule_list : forall errors,
  check_rules value errors rule_list
  = (msgs ← check_rules value [] rule_list; Ok (errors ++ msgs)).
Proof.
  induction rule_list as [|rule rest IH]; intros errors;
    cbn [check_rules mbind result_bind rbind].
  - rewrite app_nil_r. reflexivity.
  - rewrite (check_rule_appends value errors), (check_rule_appends value []).
    destruct (rule_messages value rule) as [m|e];
      cbn [mbind result_bind rbind app]; [|reflexivity].
    rewrite (IH (errors ++ m)), (IH m).
    destruct (check_rules value [] rest) as [m'|e];
      cbn [mbind result_bind rbind]; [|reflexivity].
    rewrite app_assoc. reflexivity.
Qed.

Lemma check_rules_app value l1 l2 : forall errors,
  check_rules value errors (l1 ++ l2)
  = (errors' ← check_rules value errors l1; check_rules value errors' l2).
Proof.
  induction l1 as [|rule l1 IH]; intros errors; [reflexivity|].
  cbn [app check_rules mbind result_bind rbind].
  destruct (check_rule value errors rule) as [errors'|e]; [apply IH|reflexivity].
Qed.

(** X3. Validating against [r1|r2] is validating against [r1], then against
    [r2], and putting the two lists of messages one after the other; an
    exception of either side is the exception of the whole. *)
Theorem validate_property_concat property_name value r1 r2 :
  _validate_property property_name value (r1 +:+ String "|" r2)
  = (e1 ← _validate_property property_name value r1;
     e2 ← _validate_property property_name value r2;
     Ok (e1 ++ e2)).
Proof.
  unfold _validate_property, rule_list_of.
  rewrite split_app, fmap_app, check_rules_app.
  destruct (check_rules value [] (PyString.strip <$> PyString.split "|" r1))
    as [e1|e]; cbn [mbind result_bind rbind]; [|reflexivity].
  apply check_rules_from_nil.
Qed.

Lemma rule_messages_length value rule msgs :
  rule_messages value rule = Ok msgs -> (length msgs <= 1)%nat.
Proof.
  unfold rule_messages, check_rule.
  repeat (match goal with
          | |- context [if ?b then _ else _] => destruct b
          | |- context [rule_parameter ?r] => destruct (rule_parameter r)
          | |- context [re_match_email ?v] => destruct (re_match_email v)
          end; cbn [mbind result_bind rbind app]);
    intros [= <-] || discriminate; simpl; lia.
Qed.

Lemma check_rules_length value rule_list : forall errors errors',
  check_rules value errors rule_list = Ok errors' ->
  (length errors' <= length errors + length rule_list)%nat.
Proof.
  induction rule_list as [|rule rest IH]; intros errors errors';
    cbn [check_rules mbind result_bind rbind].
  - intros [= <-]. simpl. lia.
  - rewrite check_rule_appends.
    destruct (rule_messages value rule) as [m|e] eqn:Hm;
      cbn [mbind result_bind rbind]; [|discriminate].
    intros H%IH. apply rule_messages_length in Hm.
    rewrite length_app in H. simpl. lia.
Qed.

(** X4. Each rule contributes at most one message: a validation that
    returns has no more messages than the rule string has pieces between
    its pipes. *)
Theorem validate_property_length property_name value rules errors :
  _validate_property property_name value rules = Ok errors ->
  (length errors <= length (PyString.split "|" rules))%nat.
Proof.
  unfold _validate_property, rule_list_of. intros H%check_rules_length.
  rewrite length_fmap in H. exact H.
Qed.

Lemma validate_property_length_witness :
  _validate_property "name" (PyStr "ab") "required|min:3|email"
  = Ok ["Must be at least 3 characters."; "Must be a valid email address."]
  /\ (2 <= length (PyString.split "|" "required|min:3|email"))%nat.
Proof.
  assert (H : _validate_property "name" (PyStr "ab") "required|min:3|email"
              = Ok ["Must be at least 3 characters.";
                    "Must be a valid email address."])
    by (vm_compute; reflexivity).
  split; [exact H|].
  exact (validate_property_length "name" (PyStr "ab") "required|min:3|email"
           _ H).
Defined.

(** The index [1] of [rule.split(':')] exists for a rule that starts with
    [min:] or [max:]. *)
Lemma rule_parameter_piece rule :
  PyString.startswith rule "min:" = true
  \/ PyString.startswith rule "max:" = true ->
  exists piece, PyString.split ":" rule !! 1%nat = Some piece.
Proof.
  assert (H : forall a b c rest,
            Ascii.eqb a ":" = false -> Ascii.eqb b ":" = false ->
            Ascii.eqb c ":" = false ->
            exists piece,
              PyString.split ":"
                (String a (String b (String c (String ":" rest)))) !! 1%nat
              = Some piece).
  { intros a b c rest Ha Hb Hc.
    change (String a (String b (String c (String ":" rest))))
      with (String a (String b (String c "")) +:+ String ":" rest).
    rewrite split_app, (split_no_sep ":" (String a (String b (String c ""))))
      by (cbn [string_forall]; rewrite Ha, Hb, Hc; reflexivity).
    destruct (PyString.split ":" rest) as [|piece ps] eqn:E;
      [destruct (split_nonempty _ _ E)|].
    exists piece. reflexivity. }
  intros [Hr | Hr];
    apply startswith_cons in Hr as (s1 & -> & Hr);
    apply startswith_cons in Hr as (s2 & -> & Hr);
    apply startswith_cons in Hr as (s3 & -> & Hr);
    apply startswith_cons in Hr as (s4 & -> & _);
    apply H; reflexivity.
Qed.

Lemma rule_parameter_raise rule e :
  PyString.startswith rule "min:" = true
  \/ PyString.startswith rule "max:" = true ->
  rule_parameter rule = Raise e -> e = ValueError.
Proof.
  intros [piece Hp]%rule_parameter_piece. unfold rule_parameter.
  rewrite Hp. cbn [of_option mbind result_bind rbind].
  destruct (PyString.int piece); cbn [of_option]; congruence.
Qed.

Lemma rule_messages_raise value rule e :
  rule_messages value rule = Raise e ->
  (e = TypeError /\ rule = "email" /\ truth value = true
   /\ isinstance_str value = false)
  \/ (e = ValueError
      /\ (PyString.startswith rule "min:" = true
          \/ PyString.startswith rule "max:" = true)
      /\ rule_parameter rule = Raise ValueError).
Proof.
  unfold rule_messages, check_rule.
  destruct (String.eqb rule "required");
    [destruct (is_None value || eq_empty_str value); discriminate|].
  destruct (PyString.startswith rule "min:") eqn:Hmin.
  { destruct (rule_parameter rule) as [n|e0] eqn:Hp;
      cbn [mbind result_bind rbind].
    - destruct (number_below value n); [discriminate|].
      destruct (str_shorter value n); discriminate.
    - intros [= <-]. right.
      pose proof (rule_parameter_raise rule e0 (or_introl Hmin) Hp) as ->.
      auto. }
  destruct (PyString.startswith rule "max:") eqn:Hmax.
  { destruct (rule_parameter rule) as [n|e0] eqn:Hp;
      cbn [mbind result_bind rbind].
    - destruct (number_above value n); [discriminate|].
      destruct (str_longer value n); discriminate.
    - intros [= <-]. right.
      pose proof (rule_parameter_raise rule e0 (or_intror Hmax) Hp) as ->.
      auto. }
  destruct (String.eqb_spec rule "email") as [-> |]; [|discriminate].
  destruct (truth value) eqn:Ht; [|discriminate].
  destruct value; cbn [re_match_email mbind result_bind rbind];
    try (intros [= <-]; left; auto).
  destruct (negb _); discriminate.
Qed.

Lemma check_rules_raise value rule_list : forall errors e,
  check_rules value errors rule_list = Raise e ->
  exists rule, rule ∈ rule_list /\ rule_messages value rule = Raise e.
Proof.
  induction rule_list as [|rule rest IH]; intros errors e;
    cbn [check_rules mbind result_bind rbind]; [discriminate|].
  rewrite check_rule_appends.
  destruct (rule_messages value rule) as [m|e0] eqn:Hm;
    cbn [mbind result_bind rbind].
  - intros (r & Hin & Hr)%IH. exists r.
    split; [apply list_elem_of_further, Hin | exact Hr].
  - intros [= <-]. exists rule. split; [apply list_elem_of_here | exact Hm].
Qed.

(** X5. [_validate_property] raises in two ways only: a [TypeError] when the
    rule [email] meets a truthy value that is not a string, and a
    [ValueError] when the parameter of a [min:] or [max:] rule is not an
    integer literal. The index into [rule.split(':')] is never out of
    range. *)
Theorem validate_property_raises property_name value rules e :
  _validate_property property_name value rules = Raise e ->
  (e = TypeError /\ "email" ∈ rule_list_of rules /\ truth value = true
   /\ isinstance_str value = false)
  \/ (e = ValueError
      /\ exists rule,
           rule ∈ rule_list_of rules
           /\ (PyString.startswith rule "min:" = true
               \/ PyString.startswith rule "max:" = true)
           /\ rule_parameter rule = Raise ValueError).
Proof.
  unfold _validate_property.
  intros (rule & Hin & [(-> & -> & Ht & Hs) | (-> & Hr & Hp)]%rule_messages_raise)
    %check_rules_raise.
  - left. auto.
  - right. split; [reflexivity|]. exists rule. auto.
Qed.

Lemma validate_property_raises_witness :
  _validate_property "age" (PyInt 5) "required|email" = Raise TypeError
  /\ ((TypeError = TypeError /\ "email" ∈ rule_list_of "required|email"
       /\ truth (PyInt 5) = true /\ isinstance_str (PyInt 5) = false)
      \/ (TypeError = ValueError
          /\ exists rule,
               rule ∈ rule_list_of "required|email"
               /\ (PyString.startswith rule "min:" = true
                   \/ PyString.startswith rule "max:" = true)
               /\ rule_parameter rule = Raise ValueError)).
Proof.
  assert (H : _validate_property "age" (PyInt 5) "required|email"
              = Raise TypeError) by (vm_compute; reflexivity).
  split; [exact H|].
  exact (validate_property_raises "age" (PyInt 5) "required|email" _ H).
Defined.

(** ** More on [is_valid], and [add_error] *)

Lemma is_valid_loop_state self items : forall e,
  exists e', (is_valid_loop (set_errors self e) items).1 = set_errors self e'.
Proof.
  induction items as [|[f rules] items IH]; intros e; cbn [is_valid_loop].
  - exists e. reflexivity.
  - destruct (hasattr (set_errors self e) f); [|apply IH].
    destruct (getattr (set_errors self e) f) as [v|]; [|exists e; reflexivity].
    destruct (_validate_property f v rules) as [errs|]; [|exists e; reflexivity].
    destruct (bool_decide (errs = [])); [apply IH|].
    change (set_errors (set_errors self e)
              (<[f := errs]> (_errors (set_errors self e))))
      with (set_errors self (<[f := errs]> e)).
    apply IH.
Qed.

Lemma is_valid_state self :
  exists e', (is_valid self).1 = set_errors self e'.
Proof.
  unfold is_valid.
  destruct (is_valid_loop_state self (_validation_rules self) ∅) as [e' He'].
  change (_validation_rules (set_errors self ∅)) with (_validation_rules self).
  destruct (is_valid_loop (set_errors self ∅) (_validation_rules self))
    as [s r]. exists e'. exact He'.
Qed.

Lemma add_error_state self field message :
  exists e', add_error self field message = set_errors self e'.
Proof.
  unfold add_error. destruct (bool_decide _); eexists; reflexivity.
Qed.

(** X6. [is_valid] changes nothing of the instance but its errors, and its
    outcome does not depend on the errors recorded before: a second call
    gives the result and the state of the first, raised exception included,
    and what [add_error] recorded before the call is dropped by it. *)
Theorem is_valid_idempotent self :
  (exists e', (is_valid self).1 = set_errors self e')
  /\ is_valid (is_valid self).1 = is_valid self
  /\ forall field message,
       is_valid (add_error self field message) = is_valid self.
Proof.
  split; [apply is_valid_state|]. split.
  - destruct (is_valid_state self) as [e' ->]. reflexivity.
  - intros field message.
    destruct (add_error_state self field message) as [e' ->]. reflexivity.
Qed.

(** X7. [add_error] appends the message to the list of the field, starting
    the list when the field has none, and leaves the lists of the other
    fields and the rest of the instance as they are. *)
Theorem add_error_lookup self field message :
  (forall f,
     get_errors (add_error self field message) !! f
     = if decide (f = field)
       then Some (default [] (get_errors self !! field) ++ [message])
       else get_errors self !! f)
  /\ add_error self field message
     = set_errors self (get_errors (add_error self field message)).
Proof.
  unfold add_error, get_errors. split.
  - intros f. destruct (decide (f = field)) as [-> | Hne].
    + destruct (_errors self !! field) as [l|] eqn:E.
      * rewrite bool_decide_eq_false_2
          by (intros H; apply H, elem_of_dom; eauto).
        cbn [_errors set_errors]. rewrite lookup_alter_eq, E. reflexivity.
      * rewrite bool_decide_eq_true_2 by (apply not_elem_of_dom, E).
        cbn [_errors set_errors].
        rewrite lookup_alter_eq, lookup_insert_eq. reflexivity.
    + destruct (bool_decide _); cbn [_errors set_errors];
        rewrite lookup_alter_ne by congruence;
        rewrite ?lookup_insert_ne by congruence; reflexivity.
  - destruct (bool_decide _); reflexivity.
Qed.


(** ** More on dispatch *)

Lemma dispatch_state self request :
  (dispatch self request).1
  = set_is_voltwire_request self
      (bool_decide (headers_get request "X-VoltWire-Request" = Some "true")).
Proof.
  unfold dispatch.
  repeat (match goal with
          | |- context [if ?b then _ else _] => destruct b
          | |- context [match ?o with Some _ => _ | None => _ end] =>
              destruct o
          end; try reflexivity).
Qed.

Lemma call_handler_outcome h e :
  call_handler h = Raise e -> e = TypeError.
Proof.
  destruct h as [v|]; cbn [call_handler]; [|discriminate].
  destruct (callable v); [discriminate | congruence].
Qed.

Lemma call_handler_called h v :
  call_handler h = Ok (Called v) -> callable v = true.
Proof.
  destruct h as [w|]; cbn [call_handler]; [|discriminate].
  destruct (callable w) eqn:E; [congruence | discriminate].
Qed.

(** The result of [dispatch] is always that of a call. *)
Lemma dispatch_calls self request :
  exists h, (dispatch self request).2 = call_handler h.
Proof.
  unfold dispatch.
  set (self' := set_is_voltwire_request self _).
  destruct (_is_voltwire_request self' && String.eqb (method request) "POST");
    [|eexists; reflexivity].
  destruct (POST request !! "voltwire_action") as [action|];
    [|eexists; reflexivity].
  unfold hasattr. destruct (getattr self' action) as [v|] eqn:E.
  - destruct (truth (PyStr action) && bool_decide (is_Some (Some v)));
      eexists; reflexivity.
  - rewrite (bool_decide_eq_false_2 (is_Some None)) by (intros [? [=]]).
    rewrite andb_false_r. eexists; reflexivity.
Qed.

(** X11. [dispatch] records on the instance whether the request carries
    [X-VoltWire-Request: true] and changes nothing else of it. Whatever it
    calls is callable, and the only exception it raises itself is the
    [TypeError] of calling an attribute that is not: an attribute is never
    looked up without the test that it exists. *)
Theorem dispatch_outcome self request :
  (dispatch self request).1
  = set_is_voltwire_request self
      (bool_decide (headers_get request "X-VoltWire-Request" = Some "true"))
  /\ (forall e, (dispatch self request).2 = Raise e -> e = TypeError)
  /\ (forall v, (dispatch self request).2 = Ok (Called v) ->
                callable v = true).
Proof.
  split; [apply dispatch_state|].
  destruct (dispatch_calls self request) as [h ->].
  split; [apply call_handler_outcome | apply call_handler_called].
Qed.

(** X12. Unless the request is a POST that carries
    [X-VoltWire-Request: true], its form fields have no part in dispatch:
    the field [voltwire_action] is not even read. *)
Theorem dispatch_ignores_fields self request fields :
  headers_get request "X-VoltWire-Request" <> Some "true"
  \/ method request <> "POST" ->
  dispatch self (with_POST request fields) = dispatch self request.
Proof.
  intros H. unfold dispatch.
  change (headers_get (with_POST request fields))
    with (headers_get request).
  change (method (with_POST request fields)) with (method request).
  change (verb_handler ?s (with_POST request fields))
    with (verb_handler s request).
  cbn [_is_voltwire_request set_is_voltwire_request].
  destruct H as [H | H].
  - rewrite bool_decide_eq_false_2 by exact H. reflexivity.
  - destruct (String.eqb_spec (method request) "POST"); [contradiction|].
    rewrite andb_false_r. reflexivity.
Qed.

Lemma dispatch_ignores_fields_witness :
  dispatch Examples.counter
    (with_POST
       {| method := "GET";
          headers := {[ "x-voltwire-request" := "true" ]};
          POST := ∅ |}
       {[ "voltwire_action" := "post" ]})
  = dispatch Examples.counter
      {| method := "GET";
         headers := {[ "x-voltwire-request" := "true" ]};
         POST := ∅ |}.
Proof.
  apply (dispatch_ignores_fields Examples.counter
           {| method := "GET";
              headers := {[ "x-voltwire-request" := "true" ]};
              POST := ∅ |}
           {[ "voltwire_action" := "post" ]}).
  right. discriminate.
Defined.

(** X13. On a reactive POST, a non-empty [voltwire_action] that names an
    attribute of the component decides alone what is called: the attribute
    is called when it is callable and a [TypeError] is raised when it is
    not, whatever the allowed verbs and the handler [post] are. *)
Theorem dispatch_named_action self request action v :
  headers_get request "X-VoltWire-Request" = Some "true" ->
  method request = "POST" ->
  POST request !! "voltwire_action" = Some action ->
  action <> "" ->
  action <> "_is_voltwire_request" ->
  getattr self action = Some v ->
  (dispatch self request).2
  = if callable v then Ok (Called v) else Raise TypeError.
Proof.
  intros Hh Hm Hp Hne Hflag Hv. unfold dispatch.
  rewrite Hh, (bool_decide_eq_true_2 (Some "true" = Some "true")) by reflexivity.
  cbn [_is_voltwire_request set_is_voltwire_request]. rewrite Hm.
  change (true && String.eqb "POST" "POST") with true. cbv iota.
  rewrite Hp, hasattr_set_is_voltwire_request.
  rewrite getattr_set_is_voltwire_request by exact Hflag.
  unfold hasattr. rewrite Hv, bool_decide_eq_true_2 by eauto.
  assert (Ht : truth (PyStr action) = true).
  { cbn [truth]. destruct (String.eqb_spec action ""); [contradiction|reflexivity]. }
  rewrite Ht. reflexivity.
Qed.

Lemma dispatch_named_action_witness :
  (dispatch Examples.counter
     (Examples.reactive_post [("voltwire_action", "count")])).2
  = Raise TypeError
  /\ (dispatch Examples.counter
        (Examples.reactive_post [("voltwire_action", "render")])).2
     = Ok (Called (method_named "render")).
Proof.
  split.
  - apply (dispatch_named_action Examples.counter
             (Examples.reactive_post [("voltwire_action", "count")])
             "count" (PyInt 0)); reflexivity || discriminate.
  - apply (dispatch_named_action Examples.counter
             (Examples.reactive_post [("voltwire_action", "render")])
             "render" (method_named "render")); reflexivity || discriminate.
Defined.

(** ** More on templates *)

Lemma probe_templates_first get_template class_name before ext after :
  (forall e, e ∈ before ->
     get_template ("VoltWire/" +:+ class_name +:+ e) = false) ->
  get_template ("VoltWire/" +:+ class_name +:+ ext) = true ->
  probe_templates get_template class_name (before ++ ext :: after)
  = Some ("VoltWire/" +:+ class_name +:+ ext).
Proof.
  induction before as [|e before IH]; intros Hmiss Hext;
    cbn [app probe_templates].
  - rewrite Hext. reflexivity.
  - rewrite Hmiss by apply list_elem_of_here.
    apply IH; [|exact Hext]. intros e0 He0.
    apply Hmiss, list_elem_of_further, He0.
Qed.

(** X14. [get_template_name] returns the first candidate, in the order of
    the configured extensions, that the template store has: an extension
    later in the list is used only when every earlier one is missing. *)
Theorem get_template_name_first_existing get_template self before ext after :
  template_extensions_of self = before ++ ext :: after ->
  (forall e, e ∈ before ->
     get_template ("VoltWire/" +:+ cls_name self +:+ e) = false) ->
  get_template ("VoltWire/" +:+ cls_name self +:+ ext) = true ->
  get_template_name get_template self
  = "VoltWire/" +:+ cls_name self +:+ ext.
Proof.
  intros Hexts Hmiss Hext. unfold get_template_name. rewrite Hexts.
  rewrite (probe_templates_first _ _ _ _ _ Hmiss Hext). reflexivity.
Qed.

Lemma get_template_name_first_existing_witness :
  get_template_name (fun name => String.eqb name "VoltWire/Counter.html")
    Examples.counter
  = "VoltWire/" +:+ cls_name Examples.counter +:+ ".html".
Proof.
  apply (get_template_name_first_existing
           (fun name => String.eqb name "VoltWire/Counter.html")
           Examples.counter [".vw.html"] ".html" []); [reflexivity| |reflexivity].
  intros e ->%list_elem_of_singleton. reflexivity.
Defined.

Lemma probe_templates_some get_template class_name exts t :
  probe_templates get_template class_name exts = Some t ->
  get_template t = true
  /\ exists ext, ext ∈ exts /\ t = "VoltWire/" +:+ class_name +:+ ext.
Proof.
  induction exts as [|ext exts IH]; cbn [probe_templates]; [discriminate|].
  destruct (get_template ("VoltWire/" +:+ class_name +:+ ext)) eqn:E.
  - intros [= <-]. split; [exact E|]. exists ext.
    split; [apply list_elem_of_here | reflexivity].
  - intros [Ht (e & He & ->)]%IH. split; [exact Ht|]. exists e.
    split; [apply list_elem_of_further, He | reflexivity].
Qed.

(** X15. The name [get_template_name] returns is either the fallback
    [VoltWire/<class>.html] or a candidate built from a configured
    extension that the template store has; the module of the class and the
    application it belongs to play no part in it. *)
Theorem get_template_name_cases get_template self :
  get_template_name get_template self
  = "VoltWire/" +:+ cls_name self +:+ ".html"
  \/ (get_template (get_template_name get_template self) = true
      /\ exists ext,
           ext ∈ template_extensions_of self
           /\ get_template_name get_template self
              = "VoltWire/" +:+ cls_name self +:+ ext).
Proof.
  unfold get_template_name.
  destruct (probe_templates get_template (cls_name self)
              (template_extensions_of self)) as [t|] eqn:E; [right|left; reflexivity].
  apply probe_templates_some in E. exact E.
Qed.


(** ** The class decorators *)

Lemma new_component_instantiate base_attrs module name body :
  new_component base_attrs module name body
  = instantiate base_attrs module name (class_body body).
Proof. reflexivity. Qed.

(** X17. [@layout] and [@title] each set one class attribute, which every
    instance then sees, and touch nothing else of the class, the
    validation rules least of all; applied more than once the outermost
    wins, and the two commute. *)
Theorem layout_title_attributes base_attrs module name l l' t cls :
  getattr (instantiate base_attrs module name (layout l cls)) "_layout" = Some l
  /\ getattr (instantiate base_attrs module name (title t cls)) "_title" = Some t
  /\ ns_validation_rules (layout l (title t cls)) = ns_validation_rules cls
  /\ layout l (title t cls) = title t (layout l cls)
  /\ layout l (layout l' cls) = layout l cls.
Proof.
  repeat split.
  - unfold getattr, field_attrs, instantiate, layout. simpl.
    destruct (ns_template_extensions cls);
      rewrite !lookup_insert; repeat (case_decide; [discriminate|]);
      rewrite lookup_singleton_ne by discriminate;
      rewrite !lookup_empty, !lookup_union, lookup_insert_eq,
        !union_Some_l; reflexivity.
  - unfold getattr, field_attrs, instantiate, title. simpl.
    destruct (ns_template_extensions cls);
      rewrite !lookup_insert; repeat (case_decide; [discriminate|]);
      rewrite lookup_singleton_ne by discriminate;
      rewrite !lookup_empty, !lookup_union, lookup_insert_eq,
        !union_Some_l; reflexivity.
  - unfold layout, title. simpl. f_equal.
    apply insert_insert_ne. discriminate.
  - unfold layout. simpl. f_equal. apply insert_insert_eq.
Qed.


(** ** The middleware *)

Section MiddlewareFacts.
Import Middleware.

Lemma process_request_fields r :
  process_request r
  = {| http := http r;
       is_voltwire_spa :=
         if truth (_is_voltwire_spa_request r) then Some (PyBool true)
         else is_voltwire_spa r;
       is_voltwire_component :=
         if _is_voltwire_component_request r then Some (PyBool true)
         else is_voltwire_component r |}.
Proof.
  unfold process_request, _is_voltwire_component_request.
  destruct (truth (_is_voltwire_spa_request r)); cbn [http];
    destruct (bool_decide _); destruct r; reflexivity.
Qed.

(** X18. The middleware and [dispatch] classify alike: on a request that
    enters without the attribute, [process_request] sets
    [is_voltwire_component] to [True] exactly when [dispatch] will set
    [_is_voltwire_request] on the component, and leaves it unset, not
    [False], otherwise. Running [process_request] twice changes nothing
    more. *)
Theorem process_request_classifies r self :
  (is_voltwire_component r = None ->
   is_voltwire_component (process_request r)
   = if _is_voltwire_request (dispatch self (http r)).1
     then Some (PyBool true) else None)
  /\ http (process_request r) = http r
  /\ process_request (process_request r) = process_request r.
Proof.
  split; [|split].
  - intros Hnone. rewrite dispatch_state, process_request_fields.
    cbn [_is_voltwire_request set_is_voltwire_request is_voltwire_component].
    unfold _is_voltwire_component_request. rewrite Hnone. reflexivity.
  - rewrite process_request_fields. reflexivity.
  - rewrite (process_request_fields (process_request r)).
    rewrite (process_request_fields r).
    unfold _is_voltwire_component_request, _is_voltwire_spa_request.
    cbn [http is_voltwire_spa is_voltwire_component].
    f_equal.
    + destruct (bool_decide (headers_get (http r) "X-VoltWire-SPA" = _));
        [reflexivity|].
      destruct (truth (default (PyBool false) (is_voltwire_spa r))) eqn:E;
        cbn [default from_option id truth]; [reflexivity|].
      rewrite E. reflexivity.
    + destruct (bool_decide _); reflexivity.
Qed.

Variable decode : string -> option string.
Variable encode : string -> string.

(** X19. A request that carried [X-VoltWire-SPA: true] through
    [process_request] gets the header back on its response, and a response
    that [process_response] returns for a request without the flag has the
    headers it came with. *)
Theorem process_response_spa_header settings r resp resp' :
  process_response decode encode settings (process_request r) resp
  = Returned resp' ->
  (headers_get (http r) "X-VoltWire-SPA" = Some "true" ->
   response_headers resp' !! "x-voltwire-spa" = Some "true")
  /\ (spa_flagged (process_request r) = false ->
      response_headers resp' = response_headers resp).
Proof.
  assert (Hflag : headers_get (http r) "X-VoltWire-SPA" = Some "true" ->
                  spa_flagged (process_request r) = true).
  { intros Hh. unfold process_request, _is_voltwire_spa_request, spa_flagged.
    rewrite (bool_decide_eq_true_2 _ Hh). cbn [truth].
    destruct (_is_voltwire_component_request _); reflexivity. }
  unfold process_response.
  destruct (spa_flagged (process_request r)) eqn:Hspa.
  - set (resp1 := {| response_headers := _; content := _; streaming := _ |}).
    intros H. split; [intros _|discriminate].
    assert (Hh : response_headers resp' = response_headers resp1).
    { destruct (_ && _ && _) in H; [|injection H as <-; reflexivity].
      destruct (decode _); [|discriminate].
      destruct (contains _ _); injection H as <-; reflexivity. }
    rewrite Hh. apply lookup_insert_eq.
  - intros H. split; [intros Hh%Hflag; discriminate|intros _].
    destruct (_ && _ && _) in H; [|injection H as <-; reflexivity].
    destruct (decode _); [|discriminate].
    destruct (contains _ _); injection H as <-; reflexivity.
Qed.


End MiddlewareFacts.

Lemma process_request_classifies_witness :
  Middleware.is_voltwire_component
    (Middleware.process_request
       {| Middleware.http := Examples.reactive_post [];
          Middleware.is_voltwire_spa := None;
          Middleware.is_voltwire_component := None |})
  = Some (PyBool true).
Proof.
  rewrite (proj1 (process_request_classifies
                    {| Middleware.http := Examples.reactive_post [];
                       Middleware.is_voltwire_spa := None;
                       Middleware.is_voltwire_component := None |}
                    Examples.counter) eq_refl).
  reflexivity.
Defined.

Lemma process_response_spa_header_witness :
  Middleware.process_response Some id None
    (Middleware.process_request
       {| Middleware.http :=
            {| method := "GET";
               headers := {[ "x-voltwire-spa" := "true" ]};
               POST := ∅ |};
          Middleware.is_voltwire_spa := None;
          Middleware.is_voltwire_component := None |})
    {| Middleware.response_headers := ∅;
       Middleware.content := "ok";
       Middleware.streaming := false |}
  = Middleware.Returned
      {| Middleware.response_headers := {[ "x-voltwire-spa" := "true" ]};
         Middleware.content := "ok"; Middleware.streaming := false |}
  /\ Middleware.response_headers
       {| Middleware.response_headers := {[ "x-voltwire-spa" := "true" ]};
          Middleware.content := "ok"; Middleware.streaming := false |}
     !! "x-voltwire-spa" = Some "true".
Proof.
  assert (H : Middleware.process_response Some id None
                (Middleware.process_request
                   {| Middleware.http :=
                        {| method := "GET";
                           headers := {[ "x-voltwire-spa" := "true" ]};
                           POST := ∅ |};
                      Middleware.is_voltwire_spa := None;
                      Middleware.is_voltwire_component := None |})
                {| Middleware.response_headers := ∅;
                   Middleware.content := "ok";
                   Middleware.streaming := false |}
              = Middleware.Returned
                  {| Middleware.response_headers :=
                       {[ "x-voltwire-spa" := "true" ]};
                     Middleware.content := "ok";
                     Middleware.streaming := false |})
    by (vm_compute; reflexivity).
  split; [exact H|].
  apply (proj1 (process_response_spa_header Some id None _ _ _ H)).
  reflexivity.
Defined.


(** ** Redirection after dispatch *)

(** X23. In a handler that [dispatch] has reached, [redirect] follows the
    header of the request being dispatched: with
    [X-VoltWire-Request: true] a target that resolves gives the envelope
    with the two fields [success] and [redirect], and without the header
    the answer is the one of Django's [redirect]. *)
Theorem redirect_after_dispatch reverse shortcuts_redirect self request
    view_name args kwargs :
  (headers_get request "X-VoltWire-Request" = Some "true" ->
   forall url, reverse view_name args kwargs = Some url ->
   redirect reverse shortcuts_redirect (dispatch self request).1
     view_name args kwargs
   = Ok (JsonResponse {[ "success" := PyBool true; "redirect" := PyStr url ]}))
  /\ (headers_get request "X-VoltWire-Request" <> Some "true" ->
      redirect reverse shortcuts_redirect (dispatch self request).1
        view_name args kwargs
      = (r ← shortcuts_redirect view_name args kwargs; Ok (HttpRedirect r))).
Proof.
  rewrite dispatch_state. unfold redirect.
  cbn [_is_voltwire_request set_is_voltwire_request]. split.
  - intros Hh url Hurl. rewrite bool_decide_eq_true_2 by exact Hh.
    rewrite Hurl. reflexivity.
  - intros Hh. rewrite bool_decide_eq_false_2 by exact Hh. reflexivity.
Qed.

Lemma redirect_after_dispatch_witness :
  redirect Examples.reverse_home Examples.redirect_home
    (dispatch Examples.counter (Examples.reactive_post [])).1 "home" [] []
  = Ok (JsonResponse {[ "success" := PyBool true; "redirect" := PyStr "/" ]}).
Proof.
  apply (proj1 (redirect_after_dispatch Examples.reverse_home
                  Examples.redirect_home Examples.counter
                  (Examples.reactive_post []) "home" [] []));
    reflexivity.
Defined.

(** ** Stacked [@validate] *)

Lemma decorate_name decorators f :
  __name__ (decorate decorators f) = __name__ f.
Proof.
  induction decorators as [|r rest IH]; [reflexivity|].
  cbn [decorate foldr].
  rewrite (proj1 (validate_stores_on_function r _)). exact IH.
Qed.

(** X24. Several [@validate] on one function do not add up: each one
    overwrites the entry the one below it left under the name of the
    function, so that the function carries the rules of the outermost
    decorator alone. *)
Theorem validate_stacked outer inner rest name field :
  validate outer (validate inner field) = validate outer field
  /\ fn_validation_rules
       (decorate (outer :: rest)
          {| __name__ := name; fn_validation_rules := None |})
     = Some {[ name := outer ]}.
Proof.
  split.
  - assert (Heq : forall f g : pyfunction,
              __name__ f = __name__ g ->
              fn_validation_rules f = fn_validation_rules g -> f = g)
      by (intros [] []; simpl; congruence).
    apply Heq.
    + rewrite !(proj1 (validate_stores_on_function _ _)). reflexivity.
    + rewrite !(proj2 (validate_stores_on_function _ _)).
      rewrite (proj1 (validate_stores_on_function inner field)).
      cbn [default from_option id]. rewrite insert_insert_eq. reflexivity.
  - revert outer. induction rest as [|r rest IH]; intros outer.
    + cbn. rewrite insert_empty. reflexivity.
    + change (decorate (outer :: r :: rest) ?f)
        with (validate outer (decorate (r :: rest) f)).
      rewrite (proj2 (validate_stores_on_function outer _)).
      rewrite decorate_name, IH. cbn [__name__ default from_option id].
      rewrite insert_singleton_eq. reflexivity.
Qed.

(** ** The rule [email] and the character [@] *)

Lemma filter_at_absent (l : list ascii) :
  "@"%char ∉ l -> filter (eq "@"%char) l = [].
Proof.
  induction l as [|c l IH]; [reflexivity|].
  intros [Hc Hl]%not_elem_of_cons.
  rewrite filter_cons_False by congruence. apply IH, Hl.
Qed.

Lemma email_shape_one_at s :
  email_shape s ->
  length (filter (eq "@"%char) (list_ascii_of_string s)) = 1%nat.
Proof.
  intros (l & d & t & -> & _ & _ & _ & Hl & Hd & Ht).
  rewrite filter_app, filter_cons_True by reflexivity.
  rewrite filter_app, filter_cons_False by discriminate.
  rewrite !filter_at_absent by assumption. reflexivity.
Qed.

(** X25. The rule [email] rejects every non-empty string that does not
    have exactly one [@]. *)
Theorem email_rule_needs_one_at s errors :
  s <> "" ->
  length (filter (eq "@"%char) (list_ascii_of_string s)) <> 1%nat ->
  check_rule (PyStr s) errors "email"
  = Ok (errors ++ ["Must be a valid email address."]).
Proof.
  intros Hs Hcount. rewrite check_rule_email.
  assert (Ht : truth (PyStr s) = true).
  { simpl. destruct (String.eqb_spec s ""); [contradiction | reflexivity]. }
  rewrite Ht. simpl.
  destruct (Re.match_anchored email_pattern s) eqn:E; [|reflexivity].
  apply match_email_shape, email_shape_one_at in E. contradiction.
Qed.

Lemma email_rule_needs_one_at_witness :
  check_rule (PyStr "a@b@c.d") [] "email"
  = Ok ["Must be a valid email address."].
Proof.
  apply (email_rule_needs_one_at "a@b@c.d" []); [discriminate|].
  vm_compute. discriminate.
Defined.


(** ** Attribute lookup and the error map *)

Lemma field_attrs_set_errors self e name :
  name <> "_errors" ->
  field_attrs (set_errors self e) !! name = field_attrs self !! name.
Proof.
  intros Hne. unfold field_attrs. simpl.
  destruct (_template_extensions self);
    rewrite !lookup_insert; repeat case_decide; congruence.
Qed.

Lemma getattr_set_errors self e name :
  name <> "_errors" ->
  getattr (set_errors self e) name = getattr self name.
Proof.
  intros Hne. unfold getattr.
  rewrite field_attrs_set_errors by exact Hne. reflexivity.
Qed.

(** ** Attribute lookup and [dir] *)

Lemma dir_elem_of self name :
  name ∈ dir self <-> is_Some (getattr self name) \/ name ∈ class_only self.
Proof.
  unfold dir. rewrite merge_sort_Permutation, elem_of_elements.
  rewrite !elem_of_union, !elem_of_dom. unfold getattr.
  destruct (field_attrs self !! name) as [v|];
    destruct (inst_dict self !! name) as [w|];
    destruct (cls_attrs self !! name) as [x|];
    rewrite !is_Some_alt; tauto.
Qed.

Lemma readable_false self name :
  readable self name = false
  <-> PyString.startswith name "_" = false /\ getattr self name = None.
Proof.
  unfold readable, hasattr. rewrite orb_false_iff, bool_decide_eq_false.
  rewrite <- eq_None_not_Some. reflexivity.
Qed.

(** ** Property initialisation *)

Section Initialisation.
Variable self : component.

(** One turn of the loop, on an instance that differs from [self] by its
    [__dict__] only and answers every lookup as [self] does. *)
Lemma initialize_property_step d attr_name :
  (forall n, getattr (set_inst_dict self d) n = getattr self n) ->
  (readable self attr_name = false
   /\ initialize_property (set_inst_dict self d) attr_name
      = Raise AttributeError)
  \/ (readable self attr_name = true
      /\ exists d',
           initialize_property (set_inst_dict self d) attr_name
           = Ok (set_inst_dict self d')
           /\ (forall n, getattr (set_inst_dict self d') n = getattr self n)
           /\ forall n,
                d' !! n = match d !! n with
                          | Some v => Some v
                          | None => if decide (n = attr_name)
                                    then public_property self attr_name
                                    else None
                          end).
Proof.
  intros Hget. unfold initialize_property, public_property, readable, hasattr.
  rewrite Hget.
  assert (Hkeep : forall n,
            d !! n = match d !! n with
                     | Some v => Some v
                     | None => if decide (n = attr_name) then None else None
                     end).
  { intros n. destruct (d !! n); [reflexivity|]. case_decide; reflexivity. }
  destruct (PyString.startswith attr_name "_").
  { right. split; [reflexivity|]. exists d.
    split; [reflexivity|]. split; [exact Hget | exact Hkeep]. }
  destruct (getattr self attr_name) as [v|] eqn:Hv; cbn [orb].
  2:{ left. split; [|reflexivity].
      apply bool_decide_eq_false_2. intros [? [=]]. }
  right. split; [apply bool_decide_eq_true_2; eauto|].
  cbn [of_option mbind result_bind rbind].
  destruct (callable v);
    [exists d; split; [reflexivity|]; split; [exact Hget | exact Hkeep]|].
  change (inst_dict (set_inst_dict self d)) with d.
  destruct (d !! attr_name) as [w|] eqn:Hd.
  - rewrite bool_decide_eq_true_2 by (apply elem_of_dom; eauto).
    exists d. split; [reflexivity|]. split; [exact Hget|].
    intros n. destruct (d !! n) eqn:E; [reflexivity|].
    case_decide; [congruence | reflexivity].
  - rewrite bool_decide_eq_false_2 by (apply not_elem_of_dom, Hd).
    exists (<[attr_name := v]> d). split; [reflexivity|]. split.
    + intros n. specialize (Hget n). unfold getattr in *.
      change (field_attrs (set_inst_dict self ?x)) with (field_attrs self) in *.
      change (inst_dict (set_inst_dict self ?x)) with x in *.
      change (cls_attrs (set_inst_dict self ?x)) with (cls_attrs self) in *.
      destruct (field_attrs self !! n) as [fv|] eqn:Hf; [reflexivity|].
      destruct (decide (n = attr_name)) as [-> | Hne].
      * rewrite lookup_insert_eq. rewrite <- Hv. unfold getattr.
        rewrite Hf. rewrite Hd in Hget. rewrite Hf in Hv.
        destruct (inst_dict self !! attr_name); [|exact Hget].
        unfold getattr in Hv. congruence.
      * rewrite lookup_insert_ne by congruence. exact Hget.
    + intros n. destruct (decide (n = attr_name)) as [-> | Hne].
      * rewrite lookup_insert_eq, Hd. reflexivity.
      * rewrite lookup_insert_ne by congruence.
        destruct (d !! n); reflexivity.
Qed.

(** The loop goes through the names up to the first that is not readable,
    and raises there. *)
Lemma initialize_loop_run names : forall d,
  (forall n, getattr (set_inst_dict self d) n = getattr self n) ->
  exists d',
    initialize_loop (set_inst_dict self d) names
    = (set_inst_dict self d',
       if forallb (readable self) names then Ok () else Raise AttributeError)
    /\ (forall n, getattr (set_inst_dict self d') n = getattr self n)
    /\ forall n,
         d' !! n = match d !! n with
                   | Some v => Some v
                   | None => if bool_decide (n ∈ readable_prefix self names)
                             then public_property self n else None
                   end.
Proof.
  induction names as [|a names IH]; intros d Hget;
    cbn [initialize_loop forallb readable_prefix].
  - exists d. split; [reflexivity|]. split; [exact Hget|].
    intros n. destruct (d !! n); [reflexivity|].
    rewrite bool_decide_eq_false_2 by apply not_elem_of_nil. reflexivity.
  - destruct (initialize_property_step d a Hget)
      as [[Hr ->] | (Hr & d1 & -> & Hget1 & Hd1)]; rewrite Hr; cbn [andb].
    + exists d. split; [reflexivity|]. split; [exact Hget|].
      intros n. destruct (d !! n); [reflexivity|].
      rewrite bool_decide_eq_false_2 by apply not_elem_of_nil. reflexivity.
    + destruct (IH d1 Hget1) as (d' & Hrun & Hget' & Hd').
      exists d'. split; [exact Hrun|]. split; [exact Hget'|].
      intros n. rewrite Hd', Hd1. destruct (d !! n); [reflexivity|].
      destruct (decide (n = a)) as [-> | Hne].
      * rewrite (bool_decide_eq_true_2 (a ∈ a :: readable_prefix self names))
          by apply list_elem_of_here.
        destruct (public_property self a); [reflexivity|].
        destruct (bool_decide _); reflexivity.
      * assert (Hin : bool_decide (n ∈ a :: readable_prefix self names)
                      = bool_decide (n ∈ readable_prefix self names)).
        { apply bool_decide_ext. rewrite elem_of_cons. tauto. }
        rewrite Hin. reflexivity.
Qed.

End Initialisation.



(** What a call of [_initialize_properties] does while the flag is not
    set. *)
Lemma initialize_properties_first self :
  _initialized_properties self = false ->
  exists d',
    _initialize_properties self
    = (if forallb (readable self) (dir self)
       then (set_initialized_properties (set_inst_dict self d') true, Ok ())
       else (set_inst_dict self d', Raise AttributeError))
    /\ (forall n, getattr (set_inst_dict self d') n = getattr self n)
    /\ forall n,
         d' !! n = match inst_dict self !! n with
                   | Some v => Some v
                   | None =>
                       if bool_decide (n ∈ readable_prefix self (dir self))
                       then public_property self n else None
                   end.
Proof.
  intros Hflag. unfold _initialize_properties. rewrite Hflag.
  assert (Hself : set_inst_dict self (inst_dict self) = self)
    by (destruct self; reflexivity).
  destruct (initialize_loop_run self (dir self) (inst_dict self))
    as (d' & Hrun & Hget & Hd').
  { intros n. rewrite Hself. reflexivity. }
  rewrite Hself in Hrun. exists d'. rewrite Hrun.
  split; [destruct (forallb _ _); reflexivity|].
  split; [exact Hget | exact Hd'].
Qed.

Lemma initialize_properties_initialized self :
  _initialized_properties self = true ->
  _initialize_properties self = (self, Ok ()).
Proof. intros H. unfold _initialize_properties. rewrite H. reflexivity. Qed.



Lemma field_attrs_set_initialized_properties self b name :
  name <> "_initialized_properties" ->
  field_attrs (set_initialized_properties self b) !! name
  = field_attrs self !! name.
Proof.
  intros Hne. unfold field_attrs. simpl.
  destruct (_template_extensions self);
    rewrite !lookup_insert; repeat case_decide; congruence.
Qed.

Lemma getattr_initialize_properties self name :
  name <> "_initialized_properties" ->
  getattr (_initialize_properties self).1 name = getattr self name.
Proof.
  intros Hne. destruct (_initialized_properties self) eqn:Hflag.
  - rewrite initialize_properties_initialized by exact Hflag. reflexivity.
  - destruct (initialize_properties_first self Hflag) as (d' & -> & Hget & _).
    rewrite <- (Hget name).
    destruct (forallb _ _); cbn [fst]; [|reflexivity].
    unfold getattr.
    rewrite field_attrs_set_initialized_properties by exact Hne. reflexivity.
Qed.

(** X8. [_initialize_properties] is invisible to attribute lookup, whether
    it returns or raises: apart from its own flag
    [_initialized_properties], [getattr] finds for every name what it found
    before the call. *)
Theorem initialize_properties_getattr self name :
  name <> "_initialized_properties" ->
  getattr (_initialize_properties self).1 name = getattr self name.
Proof.
  intros Hne. destruct (_initialized_properties self) eqn:Hflag.
  - rewrite initialize_properties_initialized by exact Hflag. reflexivity.
  - destruct (initialize_properties_first self Hflag) as (d' & -> & Hget & _).
    rewrite <- (Hget name).
    destruct (forallb _ _); cbn [fst]; [|reflexivity].
    unfold getattr.
    rewrite field_attrs_set_initialized_properties by exact Hne. reflexivity.
Qed.

Lemma initialize_properties_getattr_witness :
  getattr (_initialize_properties Examples.profile).1 "age"
  = getattr Examples.profile "age"
  /\ inst_dict (_initialize_properties Examples.profile).1 !! "age"
     = Some (PyInt 20)
  /\ inst_dict Examples.profile !! "age" = None.
Proof.
  split; [|split; vm_compute; reflexivity].
  apply (initialize_properties_getattr Examples.profile "age"). discriminate.
Defined.

(** X9. A first call of [_initialize_properties] goes through [dir(self)]
    in its sorted order up to the first public name that cannot be looked
    up. It copies into the instance [__dict__] the value of every public
    property met on the way that the instance does not hold yet, and nothing
    else: attributes of the instance keep their value, private names and
    callables are not copied. If it meets no such name it sets the flag and
    returns; otherwise it raises [AttributeError] there, the properties
    sorted after that name are not copied and the flag stays unset. *)
Theorem initialize_properties_copies self :
  _initialized_properties self = false ->
  (forall name,
     inst_dict (_initialize_properties self).1 !! name
     = match inst_dict self !! name with
       | Some v => Some v
       | None =>
           if bool_decide (name ∈ readable_prefix self (dir self))
           then public_property self name else None
       end)
  /\ (_initialize_properties self).2
     = (if forallb (readable self) (dir self)
        then Ok () else Raise AttributeError)
  /\ _initialized_properties (_initialize_properties self).1
     = forallb (readable self) (dir self).
Proof.
  intros Hflag.
  destruct (initialize_properties_first self Hflag) as (d' & -> & _ & Hd').
  destruct (forallb _ _); cbn [fst snd]; (split; [exact Hd'|]);
    split; first [reflexivity | exact Hflag].
Qed.

Lemma initialize_properties_copies_witness :
  readable_prefix Examples.profile (dir Examples.profile)
  = ["__init__"; "_errors"; "_get_messages"; "_get_serialized_properties";
     "_initialize_properties"; "_initialized_properties";
     "_is_voltwire_request"; "_layout"; "_properties";
     "_render_voltwire_response"; "_title"; "_validate_property";
     "_validation_rules"; "add_error"; "age"]
  /\ inst_dict (_initialize_properties Examples.profile).1 !! "age"
     = Some (PyInt 20)
  /\ inst_dict (_initialize_properties Examples.profile).1 !! "name" = None
  /\ (_initialize_properties Examples.profile).2 = Raise AttributeError
  /\ _initialized_properties (_initialize_properties Examples.profile).1
     = false.
Proof.
  split; [vm_compute; reflexivity|].
  destruct (initialize_properties_copies Examples.profile eq_refl)
    as (Hcopy & Hend & Hflag).
  rewrite !Hcopy, Hend, Hflag. repeat split; vm_compute; reflexivity.
Defined.

(** ** The property reflector *)

Section Reflector.
Variable str : pyval -> result string.
Variable recursion_depth : nat.

Lemma serialize_property_unreadable self properties name :
  readable self name = false ->
  serialize_property str recursion_depth self properties name
  = Raise AttributeError.
Proof.
  intros [Hpub Hget]%readable_false. unfold serialize_property.
  rewrite Hpub, Hget. reflexivity.
Qed.

(** A list with a name that is not readable is never gone through. *)
Lemma serialize_properties_unreadable self names bad : forall properties,
  bad ∈ names -> readable self bad = false ->
  exists e,
    serialize_properties str recursion_depth self properties names = Raise e.
Proof.
  intros properties Hin Hbad. revert properties.
  induction names as [|a names IH]; intros properties;
    [apply elem_of_nil in Hin; contradiction|].
  cbn [serialize_properties].
  destruct (serialize_property str recursion_depth self properties a)
    as [properties'|e] eqn:Ha; cbn [mbind result_bind rbind]; [|eauto].
  apply elem_of_cons in Hin as [-> | Hin]; [|apply IH, Hin].
  rewrite serialize_property_unreadable in Ha by exact Hbad. discriminate.
Qed.

End Reflector.

(** C9, the input on which the code fails it. [_get_serialized_properties]
    raises on every instance for which [dir] lists a public name that
    cannot be looked up: [getattr], on line 168, is outside the [try]. Every
    instance of a component class is such an instance unless the class
    binds [as_view] anew, since [View.as_view] is a [classonlymethod]. *)
Theorem get_serialized_properties_raises str recursion_depth self bad :
  bad ∈ dir self -> readable self bad = false ->
  exists e, _get_serialized_properties str recursion_depth self = Raise e.
Proof.
  intros Hin Hbad. unfold _get_serialized_properties.
  eapply serialize_properties_unreadable; eassumption.
Qed.

Lemma get_serialized_properties_raises_witness :
  hasattr Examples.counter "as_view" = false
  /\ _get_serialized_properties (fun _ => Ok "") 1000 Examples.counter
     = Raise AttributeError.
Proof.
  split; [reflexivity|].
  destruct (get_serialized_properties_raises (fun _ => Ok "") 1000
              Examples.counter "as_view") as [e He].
  - apply (bool_decide_unpack _). vm_compute. exact I.
  - reflexivity.
  - rewrite He. f_equal.
    assert (H : _get_serialized_properties (fun _ => Ok "") 1000
                  Examples.counter = Raise AttributeError)
      by (vm_compute; reflexivity).
    congruence.
Defined.

(** The two other ways the reflector raises: a value nested deeper than
    the recursion limit allows, whose [RecursionError] the handler for
    [TypeError] and [ValueError] lets through, and a value [json.dumps]
    rejects whose [str] raises. *)
Lemma serialize_property_other_raises :
  let self :=
    setattr (setattr Examples.counter "a" (PyList [PyList []]))
      "b" (PyObj true "") in
  serialize_property (fun _ => Ok "") 1 self ∅ "a" = Raise RecursionError
  /\ serialize_property (fun _ => Raise ValueError) 1 self ∅ "b"
     = Raise ValueError.
Proof. split; vm_compute; reflexivity. Qed.

(** ** Rendering *)

Section RenderingFacts.

Variable get_template : string -> bool.
Variable str : pyval -> result string.
Variable recursion_depth : nat.
Variable render_to_string :
  string -> gmap string ctxval -> HttpRequest -> result string.
Variable get_messages : HttpRequest -> list queued_message.

(** X21. On an instance for which [dir] lists a public name that cannot be
    looked up, as [as_view] is on the instances of a component class,
    [render] produces neither a page nor an envelope: the exception of
    [_get_serialized_properties] ends [get_voltwire_context] and [render],
    whatever the request, the template name and the context are, before any
    template is rendered. *)
Theorem render_raises self bad :
  bad ∈ dir self -> readable self bad = false ->
  exists e,
    _get_serialized_properties str recursion_depth self = Raise e
    /\ get_voltwire_context str recursion_depth self = Raise e
    /\ forall request template_name context,
         render get_template str recursion_depth render_to_string
           get_messages self request template_name context
         = Raise e.
Proof.
  intros Hin Hbad.
  destruct (serialize_properties_unreadable str recursion_depth self
              (dir self) bad ∅ Hin Hbad) as [e He].
  change (_get_serialized_properties str recursion_depth self = Raise e) in He.
  exists e. split; [exact He|].
  assert (Hctx : get_voltwire_context str recursion_depth self = Raise e).
  { unfold get_voltwire_context. rewrite He. reflexivity. }
  split; [exact Hctx|]. intros request template_name context.
  unfold render. rewrite Hctx. reflexivity.
Qed.

End RenderingFacts.

Lemma render_raises_witness :
  render Examples.no_template (fun _ => Ok "") 1000 (fun _ _ _ => Ok "")
    (fun _ => []) Examples.counter Examples.reactive_get None None
  = Raise AttributeError.
Proof.
  destruct (render_raises Examples.no_template (fun _ => Ok "") 1000
              (fun _ _ _ => Ok "") (fun _ => []) Examples.counter "as_view")
    as (e & He & _ & Hrender).
  - apply (bool_decide_unpack _). vm_compute. exact I.
  - reflexivity.
  - rewrite Hrender. f_equal.
    assert (H : _get_serialized_properties (fun _ => Ok "") 1000
                  Examples.counter = Raise AttributeError)
      by (vm_compute; reflexivity).
    congruence.
Defined.

Lemma new_component_as_view base_attrs module name body :
  hasattr (new_component base_attrs module name body) "as_view" = false ->
  "as_view" ∈ dir (new_component base_attrs module name body)
  /\ readable (new_component base_attrs module name body) "as_view" = false.
Proof.
  intros H. split; [|unfold readable; rewrite H; reflexivity].
  apply dir_elem_of. right.
  change (class_only (new_component base_attrs module name body))
    with view_class_only.
  apply (bool_decide_unpack _). vm_compute. exact I.
Qed.

(** ** Validation and initialisation *)

Lemma getattr_errors self e :
  getattr (set_errors self e) "_errors" = Some (errors_value e).
Proof.
  unfold getattr, field_attrs. cbn [_errors set_errors _template_extensions].
  destruct (_template_extensions self); reflexivity.
Qed.

(** [is_valid_loop] reads of the instance only the attributes the rules
    name. *)
Lemma is_valid_loop_lookup items s t :
  (forall e n,
     n ∈ items.*1 ->
     getattr (set_errors s e) n = getattr (set_errors t e) n) ->
  forall e,
    (is_valid_loop (set_errors s e) items).2
    = (is_valid_loop (set_errors t e) items).2
    /\ _errors (is_valid_loop (set_errors s e) items).1
       = _errors (is_valid_loop (set_errors t e) items).1.
Proof.
  induction items as [|[f rules] items IH]; intros Hsame e;
    cbn [is_valid_loop]; [split; reflexivity|].
  assert (Hrest : forall e n,
            n ∈ items.*1 ->
            getattr (set_errors s e) n = getattr (set_errors t e) n).
  { intros e0 n Hn. apply Hsame. cbn [fmap list_fmap fst].
    apply list_elem_of_further, Hn. }
  unfold hasattr.
  rewrite (Hsame e f) by (cbn [fmap list_fmap fst]; apply list_elem_of_here).
  destruct (getattr (set_errors t e) f) as [v|].
  - rewrite !bool_decide_eq_true_2 by eauto.
    destruct (_validate_property f v rules) as [errs|];
      [|split; reflexivity].
    destruct (bool_decide (errs = [])); [apply IH, Hrest|].
    change (set_errors (set_errors ?c e)
              (<[f := errs]> (_errors (set_errors ?c e))))
      with (set_errors c (<[f := errs]> e)).
    apply IH, Hrest.
  - rewrite !bool_decide_eq_false_2 by (intros [? [=]]). apply IH, Hrest.
Qed.

Lemma initialize_properties_state self :
  exists d b,
    (_initialize_properties self).1
    = set_initialized_properties (set_inst_dict self d) b.
Proof.
  destruct (_initialized_properties self) eqn:Hflag.
  - rewrite initialize_properties_initialized by exact Hflag.
    exists (inst_dict self), true. destruct self. cbn in Hflag. subst.
    reflexivity.
  - destruct (initialize_properties_first self Hflag) as (d' & -> & _).
    destruct (forallb _ _); cbn [fst].
    + exists d', true. reflexivity.
    + exists d', false. destruct self. cbn in Hflag. subst. reflexivity.
Qed.

(** X26. Validation does not depend on [_initialize_properties] having been
    called, nor on how the call ended: unless a rule is declared for the
    flag [_initialized_properties] itself, [is_valid] on the instance the
    call leaves returns what it returns on the instance as it was, and
    records the same errors. *)
Theorem is_valid_after_initialize self :
  "_initialized_properties" ∉ (_validation_rules self).*1 ->
  (is_valid (_initialize_properties self).1).2 = (is_valid self).2
  /\ (is_valid (_initialize_properties self).1).1
     = set_errors (_initialize_properties self).1 (_errors (is_valid self).1).
Proof.
  intros Hnot.
  assert (Hrules : _validation_rules (_initialize_properties self).1
                   = _validation_rules self).
  { destruct (initialize_properties_state self) as (d & b & ->). reflexivity. }
  assert (Hsame : forall e n,
            n ∈ (_validation_rules self).*1 ->
            getattr (set_errors (_initialize_properties self).1 e) n
            = getattr (set_errors self e) n).
  { intros e n Hn. destruct (decide (n = "_errors")) as [-> | Hne].
    - rewrite !getattr_errors. reflexivity.
    - rewrite !getattr_set_errors by exact Hne.
      apply getattr_initialize_properties. intros ->. contradiction. }
  destruct (is_valid_loop_lookup _ _ _ Hsame ∅) as [Hres Herr].
  destruct (is_valid_state (_initialize_properties self).1) as [e' He'].
  unfold is_valid in *.
  change (_validation_rules (set_errors ?s ∅)) with (_validation_rules s) in *.
  rewrite Hrules in *.
  destruct (is_valid_loop (set_errors (_initialize_properties self).1 ∅)
              (_validation_rules self)) as [s1 r1].
  destruct (is_valid_loop (set_errors self ∅) (_validation_rules self))
    as [s2 r2].
  cbn [fst snd] in *. subst r1. rewrite Herr. split; [reflexivity|].
  rewrite He' in *. cbn [_errors set_errors] in Herr. rewrite Herr.
  reflexivity.
Qed.

Lemma is_valid_after_initialize_witness :
  (_initialize_properties Examples.profile).2 = Raise AttributeError
  /\ (is_valid (_initialize_properties Examples.profile).1).2 = Ok false
  /\ (is_valid Examples.profile).2 = Ok false.
Proof.
  split; [vm_compute; reflexivity|].
  assert (H : "_initialized_properties"
              ∉ (_validation_rules Examples.profile).*1).
  { apply (bool_decide_unpack _). vm_compute. exact I. }
  rewrite (proj1 (is_valid_after_initialize Examples.profile H)).
  split; vm_compute; reflexivity.
Defined.

(** ** Redirection *)




(** [redirect] reads the flag, not the request: on an instance that
    [dispatch] has not reached, the flag is the [False] of [__init__], and
    the answer is an HTTP redirect whatever headers the request at hand
    carries. *)
Lemma redirect_before_dispatch :
  _is_voltwire_request Examples.counter = false
  /\ redirect Examples.reverse_home Examples.django_redirect
       Examples.counter "home" [] []
     = Ok (HttpRedirect {| location := "/"; permanent := false |}).
Proof. split; vm_compute; reflexivity. Qed.

(** ** The decorator [@validate] and the class *)

Lemma field_attrs_plain self name :
  field_backed name = false -> field_attrs self !! name = None.
Proof.
  unfold field_backed, field_names. cbn [existsb].
  rewrite !orb_false_iff, !String.eqb_neq.
  intros (? & ? & ? & ? & ? & ? & _). unfold field_attrs.
  destruct (_template_extensions self);
    rewrite !lookup_insert; repeat (case_decide; [congruence|]);
    rewrite ?lookup_singleton_ne by congruence;
    rewrite ?lookup_empty; reflexivity.
Qed.

Lemma exec_stmt_keeps_rules ns s :
  binds_validation_rules s = false ->
  ns_validation_rules (exec_stmt ns s) = ns_validation_rules ns.
Proof. destruct s; simpl; [reflexivity | discriminate | reflexivity..]. Qed.

Lemma class_body_keeps_rules body : forall ns,
  Forall (fun s => binds_validation_rules s = false) body ->
  ns_validation_rules (foldl exec_stmt ns body) = ns_validation_rules ns.
Proof.
  induction body as [|s body IH]; intros ns Hbody; simpl; [reflexivity|].
  inversion Hbody as [|? ? Hs Hrest]; subst.
  rewrite IH by exact Hrest. apply exec_stmt_keeps_rules, Hs.
Qed.

(** A statement leaves the names it does not bind as they were. *)
Lemma class_body_keeps_attr n body : forall ns,
  Forall (fun s => bound_name s <> n) body ->
  ns_attrs (foldl exec_stmt ns body) !! n = ns_attrs ns !! n.
Proof.
  induction body as [|s body IH]; intros ns Hbody; simpl; [reflexivity|].
  inversion Hbody as [|? ? Hs Hrest]; subst.
  rewrite IH by exact Hrest.
  destruct s; cbn in *; rewrite ?lookup_insert_ne by congruence; reflexivity.
Qed.

(** The function a stack of decorators leaves carries the rules of the
    outermost one, under its own name. *)
Lemma decorate_outermost outer inner name :
  fn_validation_rules
    (decorate (outer :: inner)
       {| __name__ := name; fn_validation_rules := None |})
  = Some {[ name := outer ]}.
Proof.
  revert outer. induction inner as [|r inner IH]; intros outer.
  - cbn. rewrite insert_empty. reflexivity.
  - change (decorate (outer :: r :: inner) ?f)
      with (validate outer (decorate (r :: inner) f)).
    rewrite (proj2 (validate_stores_on_function outer _)).
    rewrite decorate_name, IH. cbn [__name__ default from_option id].
    rewrite insert_singleton_eq. reflexivity.
Qed.

(** C10. [@validate(rules)] stores the rules on the function object it
    decorates, under the name of the function, and nowhere else: the
    method the class then has under that name is this function, carrying
    the rules of the outermost decorator, while the [_validation_rules] of
    the class namespace is as it was. So a component class whose body
    never binds [_validation_rules] itself keeps the empty mapping of
    [VoltWireComponent], and [is_valid], which reads that mapping and not
    the functions, finds nothing to check and records no error. *)
Theorem validate_leaves_class_rules base_attrs module name body :
  Forall (fun s => binds_validation_rules s = false) body ->
  (forall rules field,
     fn_validation_rules (validate rules field)
     = Some (<[__name__ field := rules]>
               (default ∅ (fn_validation_rules field))))
  /\ (forall before outer inner f after,
        body = before ++ Def (outer :: inner) f :: after ->
        Forall (fun s => bound_name s <> name_of f) after ->
        exists fn,
          getattr (new_component base_attrs module name body) (name_of f)
          = Some (PyCallable fn)
          /\ __name__ fn = name_of f
          /\ fn_validation_rules fn = Some {[ name_of f := outer ]})
  /\ (forall ns decorators f,
        ns_validation_rules (exec_stmt ns (Def decorators f))
        = ns_validation_rules ns)
  /\ _validation_rules (new_component base_attrs module name body) = []
  /\ is_valid (new_component base_attrs module name body)
     = (new_component base_attrs module name body, Ok true).
Proof.
  intros Hbody.
  assert (Hrules :
    _validation_rules (new_component base_attrs module name body) = []).
  { unfold new_component, class_body. simpl.
    rewrite class_body_keeps_rules by exact Hbody. reflexivity. }
  split; [intros; apply validate_stores_on_function|].
  split.
  { intros before outer inner f after -> Hafter.
    exists (decorate (outer :: inner)
              {| __name__ := name_of f; fn_validation_rules := None |}).
    split; [|split; [apply decorate_name | apply decorate_outermost]].
    unfold getattr. rewrite field_attrs_plain by apply name_plain.
    unfold new_component, class_body. cbn [inst_dict cls_attrs].
    rewrite lookup_empty, foldl_app. cbn [foldl].
    rewrite !lookup_union, class_body_keeps_attr by exact Hafter.
    cbn [exec_stmt ns_attrs]. rewrite lookup_insert_eq, !union_Some_l.
    reflexivity. }
  split; [reflexivity|]. split; [exact Hrules|].
  unfold is_valid.
  change (_validation_rules (set_errors ?c ?e)) with (_validation_rules c).
  rewrite Hrules. reflexivity.
Qed.

Lemma validate_leaves_class_rules_witness :
  (exists fn,
     getattr
       (new_component ∅ "shop.components" "Profile"
          [ Assign (plain "nickname") (PyStr "");
            Def ["required|min:3"; "email"] (plain "name") ]) "name"
     = Some (PyCallable fn)
     /\ fn_validation_rules fn = Some {[ "name" := "required|min:3" ]})
  /\ _validation_rules
       (new_component ∅ "shop.components" "Profile"
          [ Assign (plain "nickname") (PyStr "");
            Def ["required|min:3"; "email"] (plain "name") ]) = []
  /\ (is_valid
        (new_component ∅ "shop.components" "Profile"
           [ Assign (plain "nickname") (PyStr "");
             Def ["required|min:3"; "email"] (plain "name") ])).2
     = Ok true.
Proof.
  assert (Hbody : Forall (fun s => binds_validation_rules s = false)
            [ Assign (plain "nickname") (PyStr "");
              Def ["required|min:3"; "email"] (plain "name") ])
    by (repeat constructor).
  destruct (validate_leaves_class_rules ∅ "shop.components" "Profile" _ Hbody)
    as (_ & Hmethod & _ & Hrules & Hvalid).
  split; [|split; [exact Hrules | rewrite Hvalid; reflexivity]].
  destruct (Hmethod [Assign (plain "nickname") (PyStr "")] "required|min:3"
              ["email"] (plain "name") [] eq_refl (Forall_nil_2 _))
    as (fn & Hget & _ & Hfn).
  exists fn. split; [exact Hget | exact Hfn].
Defined.

(** ** The body of the response *)

Section MiddlewareBody.
Import Middleware.

Lemma startswith_app_l p q : forall s,
  PyString.startswith s (p +:+ q) = true -> PyString.startswith s p = true.
Proof.
  induction p as [|a p IH]; intros s H; [destruct s; reflexivity|].
  rewrite append_cons in H.
  apply startswith_cons in H as (s' & -> & H).
  cbn [PyString.startswith]. rewrite Ascii.eqb_refl. apply IH, H.
Qed.

Lemma contains_app_l p q s :
  contains (p +:+ q) s = true -> contains p s = true.
Proof.
  induction s as [|c s IH]; cbn [contains];
    intros [H | H]%orb_true_iff; apply orb_true_iff;
    first [left; apply (startswith_app_l _ _ _ H) | right; auto].
Qed.

Lemma contains_prefix sub t : contains sub (sub +:+ t) = true.
Proof.
  assert (H : forall s,
            contains sub s
            = PyString.startswith s sub
              || match s with
                 | EmptyString => false
                 | String _ s' => contains sub s'
                 end)
    by (intros []; reflexivity).
  rewrite H, startswith_append. reflexivity.
Qed.

(** After [replace], every occurrence of [old] that was found has become
    an occurrence of [new]. *)
Lemma contains_replace c old new s :
  contains (String c old) s = true ->
  contains new (replace (String c old) new s) = true.
Proof.
  unfold replace. induction s as [|a s IH]; [discriminate|].
  cbn [contains replace_from].
  destruct (PyString.startswith (String a s) (String c old)) eqn:E.
  - intros _. apply contains_prefix.
  - cbn [orb]. intros H. cbn [contains]. rewrite (IH H). apply orb_true_r.
Qed.

Variable decode : string -> option string.
Variable encode : string -> string.

(** X20. [process_response] never changes [streaming] nor removes a header.
    It leaves the body alone when script inclusion is disabled, when the
    response is not declared [text/html] and when it streams. Otherwise it
    decodes the body, letting [UnicodeDecodeError] through; a text without
    [</head>] is left alone too, and for a text with one the body becomes
    the text with the script tag and a newline put before each [</head>],
    encoded again, so that the new text has the script tag in it. *)
Theorem process_response_body settings r resp :
  let inspected :=
    truth (voltwire_setting settings "AUTO_INCLUDE_SCRIPTS" (PyBool true))
    && PyString.startswith
         (default "" (response_headers resp !! "content-type")) "text/html"
    && negb (streaming resp) in
  let injected text :=
    replace "</head>" (script_tag +:+ newline +:+ "</head>") text in
  (inspected = false ->
   exists resp',
     process_response decode encode settings r resp = Returned resp'
     /\ content resp' = content resp)
  /\ (inspected = true -> decode (content resp) = None ->
      process_response decode encode settings r resp = UnicodeDecodeError)
  /\ (inspected = true ->
      forall text, decode (content resp) = Some text ->
      exists resp',
        process_response decode encode settings r resp = Returned resp'
        /\ content resp'
           = (if contains "</head>" text then encode (injected text)
              else content resp)
        /\ (contains "</head>" text = true ->
            contains script_tag (injected text) = true))
  /\ (forall resp',
        process_response decode encode settings r resp = Returned resp' ->
        streaming resp' = streaming resp
        /\ forall k v, response_headers resp !! k = Some v ->
                       is_Some (response_headers resp' !! k)).
Proof.
  cbv zeta. unfold process_response.
  set (resp1 := if spa_flagged r then _ else resp).
  assert (H1 : streaming resp1 = streaming resp
               /\ content resp1 = content resp
               /\ response_headers resp1 !! "content-type"
                  = response_headers resp !! "content-type"
               /\ forall k v, response_headers resp !! k = Some v ->
                              is_Some (response_headers resp1 !! k)).
  { subst resp1. destruct (spa_flagged r); cbn; [|eauto 6].
    split; [reflexivity|]. split; [reflexivity|]. split.
    - apply lookup_insert_ne. discriminate.
    - intros k v Hk. rewrite lookup_insert. case_decide; eauto. }
  clearbody resp1. destruct H1 as (Hs & Hc & Hct & Hh).
  rewrite Hs, Hc, Hct.
  set (inspected := truth _ && _ && _).
  split; [|split; [|split]].
  - intros ->. eexists. split; [reflexivity | exact Hc].
  - intros -> ->. reflexivity.
  - intros -> text ->.
    destruct (contains "</head>" text) eqn:Hin.
    + eexists. split; [reflexivity|]. split; [reflexivity|]. intros _.
      apply (contains_app_l script_tag (newline +:+ "</head>")).
      apply contains_replace, Hin.
    + eexists. split; [reflexivity|]. split; [exact Hc | discriminate].
  - intros resp'. destruct inspected; [|intros [= <-]; auto].
    destruct (decode (content resp)) as [text|]; [|discriminate].
    destruct (contains "</head>" text); intros [= <-]; auto.
Qed.

End MiddlewareBody.

Lemma process_response_body_witness :
  Middleware.process_response Some id None
    {| Middleware.http := Examples.reactive_post [];
       Middleware.is_voltwire_spa := None;
       Middleware.is_voltwire_component := None |}
    {| Middleware.response_headers :=
         {[ "content-type" := "text/html; charset=utf-8" ]};
       Middleware.content := "<head></head>"; Middleware.streaming := false |}
  = Middleware.Returned
      {| Middleware.response_headers :=
           {[ "content-type" := "text/html; charset=utf-8" ]};
         Middleware.content :=
           "<head>" +:+ Middleware.script_tag +:+ Middleware.newline
           +:+ "</head>";
         Middleware.streaming := false |}.
Proof.
  destruct (process_response_body Some id None
              {| Middleware.http := Examples.reactive_post [];
                 Middleware.is_voltwire_spa := None;
                 Middleware.is_voltwire_component := None |}
              {| Middleware.response_headers :=
                   {[ "content-type" := "text/html; charset=utf-8" ]};
                 Middleware.content := "<head></head>";
                 Middleware.streaming := false |})
    as (_ & _ & Hinject & _).
  destruct (Hinject eq_refl "<head></head>" eq_refl)
    as (resp' & Hrun & Hcontent & _).
  rewrite Hrun. f_equal.
  assert (Hrun' := Hrun). vm_compute in Hrun'. injection Hrun' as <-.
  vm_compute. reflexivity.
Defined.
